(** * Row-index filtering in the tips demo applications

    A shallow embedding of the filter code of the demo apps:

    - [filter_idx]    of app/app-breakdown/app-010-030-filter_index.py,
      which intersects Python sets of row labels;
    - [data_filtered] of app-adaptive_filters/app-0010-010-2_filters.py,
      which slices the dataframe one column after the other;
    - [PandasHints.filter_idx] of code/pandas_hints.py, the same
      intersection without the truthiness guards.

    A pandas dataframe is a list of row labels and a dict of columns; a
    Python [set] of labels is a [gset Z]; an exception is the [Raise] case
    of [result]. *)

From stdpp Require Import gmap strings list.
From Stdlib Require Import QArith.

Local Open Scope Z_scope.
Local Open Scope string_scope.

(** ** Exceptions *)

Inductive exn :=
  | KeyError (key : string)
  | ValueError
  | NameError.

Inductive result (A : Type) :=
  | Ok (a : A)
  | Raise (e : exn).
Arguments Ok {A} a.
Arguments Raise {A} e.

#[global] Instance result_ret : MRet result := @Ok.
#[global] Instance result_bind : MBind result := λ A B f m,
  match m with
  | Ok a => f a
  | Raise e => Raise e
  end.

#[global] Instance result_fmap : FMap result := λ A B f m,
  match m with
  | Ok a => Ok (f a)
  | Raise e => Raise e
  end.

Definition is_Ok {A} (r : result A) : Prop := ∃ a, r = Ok a.

(** ** Cell values and columns *)

(** The demo tables hold strings, ints and floats. The float literals of
    the sources are kept as the decimal fractions they are written as; no
    filter of the apps reads a float column. *)
Inductive value :=
  | VStr (s : string)
  | VInt (z : Z)
  | VFloat (q : Q).

(** ** Dataframes *)

(** [index] is [df.index], the row labels (ints, as pandas_hints.py types
    them); [columns] is the dict the frame was built from, in insertion
    order. *)
Record frame := Frame {
  index : list Z;
  columns : list (string * list value);
}.

(** pandas keeps every column as long as the index. *)
Definition wf_frame (df : frame) : Prop :=
  Forall (λ c, length c.2 = length (index df)) (columns df).

(** [df.index.is_unique]: the row labels identify the rows. *)
Definition unique_index (df : frame) : Prop := NoDup (index df).

(** [pd.RangeIndex(n)], the default labels 0 .. n-1. *)
Definition RangeIndex (n : nat) : list Z := Z.of_nat <$> seq 0 n.

(** [pd.DataFrame(data)] for a dict of equally long lists; pandas raises
    ValueError ("All arrays must be of the same length") otherwise. *)
Definition DataFrame (data : list (string * list value)) : result frame :=
  match data with
  | [] => Ok (Frame [] [])
  | (_, c) :: _ =>
      let n := length c in
      if forallb (λ kv, Nat.eqb (length kv.2) n) data
      then Ok (Frame (RangeIndex n) data)
      else Raise ValueError
  end.

(** [df[col]]: the values of a column, KeyError if there is none. The
    Series shares the index of its frame, so only the values are kept. *)
Fixpoint lookup_column (cols : list (string * list value)) (col : string)
    : option (list value) :=
  match cols with
  | [] => None
  | (k, vs) :: cols' => if String.eqb k col then Some vs else lookup_column cols' col
  end.

Definition getitem (df : frame) (col : string) : result (list value) :=
  match lookup_column (columns df) col with
  | Some vs => Ok vs
  | None => Raise (KeyError col)
  end.

(** [series.isin(values)] for a tuple of strings: the boolean mask of the
    cells equal to one of them. A number is never equal to a string. *)
Definition isin (s : list value) (values : list string) : list bool :=
  (λ v, match v with
        | VStr x => bool_decide (x ∈ values)
        | VInt _ | VFloat _ => false
        end) <$> s.

(** Keep the positions where the mask is True. *)
Fixpoint select {A} (mask : list bool) (l : list A) : list A :=
  match mask, l with
  | b :: mask', x :: l' => if b then x :: select mask' l' else select mask' l'
  | _, _ => []
  end.

(** [df.loc[mask]] for a boolean Series computed from [df] itself: a new
    frame with the selected rows, labels kept. *)
Definition loc (df : frame) (mask : list bool) : frame :=
  {| index := select mask (index df);
     columns := (λ c, (c.1, select mask c.2)) <$> columns df |}.

(** Truth value of a tuple: non-empty. *)
Definition truthy {A} (t : list A) : bool :=
  match t with
  | [] => false
  | _ :: _ => true
  end.

(** ** The index combiner of app-010-030-filter_index.py *)

(** [df] is the value of [df_tips()], [filter_day] and [filter_time] the
    values of [input.filter_day()] and [input.filter_time()]. [idx] is the
    Python set; [filter_idx_set] is its value at line 28 and [filter_idx]
    the returned [list(idx)]. *)
Definition filter_idx_set (df : frame) (filter_day filter_time : list string)
    : result (gset Z) :=
  let idx : gset Z := list_to_set (index df) in
  idx ← (if truthy filter_day then
           day ← getitem df "day";
           let current_idx := index (loc df (isin day filter_day)) in
           mret (idx ∩ list_to_set current_idx)
         else mret idx);
  idx ← (if truthy filter_time then
           time ← getitem df "time";
           let current_idx := index (loc df (isin time filter_time)) in
           mret (idx ∩ list_to_set current_idx)
         else mret idx);
  mret idx.

Definition filter_idx (df : frame) (filter_day filter_time : list string)
    : result (list Z) :=
  idx ← filter_idx_set df filter_day filter_time;
  mret (elements idx).

(** [df.loc[labels]] for a list of labels: the rows carrying each label, in
    the order of the list; KeyError for a label that is not in the index. *)
Definition positions_of (df : frame) (lbl : Z) : list bool :=
  (λ i, bool_decide (i = lbl)) <$> index df.

Definition loc_labels (df : frame) (labels : list Z) : result frame :=
  if forallb (λ lbl, bool_decide (lbl ∈ index df)) labels then
    Ok {| index := labels ≫= (λ lbl, select (positions_of df lbl) (index df));
          columns := (λ c, (c.1, labels ≫= (λ lbl, select (positions_of df lbl) c.2)))
                       <$> columns df |}
  else Raise (KeyError "label").

(** ** The sequential filter of app-0010-010-2_filters.py *)

(** [tips] is the module-level frame the function reads. *)
Definition data_filtered (tips : frame) (filter_day filter_time : list string)
    : result frame :=
  let df := tips in
  df ← (if truthy filter_day then
          day ← getitem df "day";
          mret (loc df (isin day filter_day))
        else mret df);
  df ← (if truthy filter_time then
          time ← getitem df "time";
          mret (loc df (isin time filter_time))
        else mret df);
  mret df.

(** The frame of line 34 of app-010-030-filter_index.py,
    [df_tips().loc[filter_idx()]]. *)
Definition data_filtered_idx (df : frame) (filter_day filter_time : list string)
    : result frame :=
  idx ← filter_idx df filter_day filter_time;
  loc_labels df idx.

(** ** The guard-free combiner of code/pandas_hints.py *)

Module PandasHints.

(** Lines 35-47: both intersections are always taken. [df] is the
    module-level frame. *)
Definition filter_idx (df : frame) (filter_day filter_time : list string)
    : result (list Z) :=
  let idx : gset Z := list_to_set (index df) in
  day ← getitem df "day";
  let current_idx := index (loc df (isin day filter_day)) in
  let idx := idx ∩ list_to_set current_idx in
  time ← getitem df "time";
  let current_idx := index (loc df (isin time filter_time)) in
  let idx := idx ∩ list_to_set current_idx in
  mret (elements idx).

End PandasHints.

(** ** The demo tables *)

Definition strs (l : list string) : list value := VStr <$> l.
Definition ints (l : list Z) : list value := VInt <$> l.
Definition floats (l : list Q) : list value := VFloat <$> l.

(** [df] of pandas_hints.py (lines 9-13): it has no day or time column. *)
Definition houses : frame :=
  Frame (RangeIndex 4)
    [ ("house", strs ["A"; "B"; "C"; "D"]);
      ("price", ints [250000; 400000; 320000; 550000]);
      ("sq_ft", ints [1800; 2200; 1500; 2800]) ].

(** [data] of app-0010-010-2_filters.py (the overrides and reset apps carry
    the same dict). *)
Definition data : list (string * list value) :=
  [ ("total_bill", floats [16.99; 10.34; 21.01; 23.68; 24.59]%Q);
    ("tip", floats [1.01; 1.66; 3.50; 3.31; 3.61]%Q);
    ("sex", strs ["Female"; "Male"; "Male"; "Male"; "Female"]);
    ("smoker", strs ["No"; "No"; "No"; "No"; "Yes"]);
    ("day", strs ["Sun"; "Sun"; "Sun"; "Fri"; "Sun"]);
    ("time", strs ["Lunch"; "Dinner"; "Dinner"; "Dinner"; "Dinner"]);
    ("size", ints [2; 3; 3; 2; 4]) ].

(** [tips = pd.DataFrame(data)]. *)
Definition tips : frame := Frame (RangeIndex 5) data.

(** The dict inside [df_tips] of app-010-030-filter_index.py. *)
Definition df_tips_data : list (string * list value) :=
  [ ("total_bill", floats [16.99; 10.34; 21.01; 23.68; 24.59;
                           25.29; 8.77; 26.88; 15.04; 14.78]%Q);
    ("tip", floats [1.01; 1.66; 3.50; 3.31; 3.61;
                    4.71; 2.00; 3.12; 3.52; 3.00]%Q);
    ("sex", strs ["Female"; "Male"; "Male"; "Male"; "Female";
                  "Male"; "Male"; "Male"; "Male"; "Female"]);
    ("smoker", strs ["No"; "No"; "No"; "No"; "Yes";
                     "No"; "No"; "Yes"; "No"; "Yes"]);
    ("day", strs ["Sun"; "Fri"; "Sun"; "Thu"; "Sun";
                  "Sun"; "Sat"; "Sat"; "Sat"; "Sat"]);
    ("time", strs ["Dinner"; "Dinner"; "Lunch"; "Dinner"; "Lunch";
                   "Dinner"; "Lunch"; "Dinner"; "Lunch"; "Dinner"]);
    ("size", ints [2; 3; 3; 2; 4; 4; 2; 4; 2; 2]) ].

Definition df_tips : frame := Frame (RangeIndex 10) df_tips_data.

(** ** The object store

    Python names hold references. To state that the filters leave the
    caller's frame alone, the same two functions are written once more with
    the store of frame objects explicit: [tips] and [df] are addresses,
    [df = tips] copies the address, [df.loc[...]] builds a new object, and
    an assignment rebinds the local name only. *)

Definition addr := nat.

Definition Py (A : Type) : Type := gmap addr frame → result (A * gmap addr frame).

#[global] Instance Py_ret : MRet Py := λ A a h, Ok (a, h).
#[global] Instance Py_bind : MBind Py := λ A B f m h,
  match m h with
  | Ok (a, h') => f a h'
  | Raise e => Raise e
  end.

(** An exception of a pandas call leaves the store as it is. *)
Definition lift {A} (r : result A) : Py A := λ h,
  match r with
  | Ok a => Ok (a, h)
  | Raise e => Raise e
  end.

(** Follow a reference; a name bound to nothing is a NameError. *)
Definition deref (r : addr) : Py frame := λ h,
  match h !! r with
  | Some f => Ok (f, h)
  | None => Raise NameError
  end.

(** A new object gets an address no live object has. *)
Definition new (f : frame) : Py addr := λ h,
  let r := fresh (dom h) in Ok (r, <[r := f]> h).

Definition py_getitem (df : addr) (col : string) : Py (list value) :=
  f ← deref df; lift (getitem f col).

Definition py_loc (df : addr) (mask : list bool) : Py addr :=
  f ← deref df; new (loc f mask).

Definition py_index (df : addr) : Py (list Z) :=
  f ← deref df; mret (index f).

(** [data_filtered] of app-0010-010-2_filters.py over the store. *)
Definition data_filtered_py (tips : addr) (filter_day filter_time : list string)
    : Py addr :=
  let df := tips in
  df ← (if truthy filter_day then
          day ← py_getitem df "day";
          py_loc df (isin day filter_day)
        else mret df);
  df ← (if truthy filter_time then
          time ← py_getitem df "time";
          py_loc df (isin time filter_time)
        else mret df);
  mret df.

(** [filter_idx] of app-010-030-filter_index.py over the store; [df] is the
    address [df_tips()] returns. *)
Definition filter_idx_py (df : addr) (filter_day filter_time : list string)
    : Py (list Z) :=
  labels ← py_index df;
  let idx : gset Z := list_to_set labels in
  idx ← (if truthy filter_day then
           day ← py_getitem df "day";
           sliced ← py_loc df (isin day filter_day);
           current_idx ← py_index sliced;
           mret (idx ∩ list_to_set current_idx)
         else mret idx);
  idx ← (if truthy filter_time then
           time ← py_getitem df "time";
           sliced ← py_loc df (isin time filter_time);
           current_idx ← py_index sliced;
           mret (idx ∩ list_to_set current_idx)
         else mret idx);
  mret (elements idx).

(** A session: every change of a selectize input invalidates the reactive
    calc, which is then computed again. *)
Inductive event :=
  | SetDay (selected : list string)
  | SetTime (selected : list string).

Record inputs := Inputs {
  cur_day : list string;
  cur_time : list string;
}.

Definition set_input (e : event) (i : inputs) : inputs :=
  match e with
  | SetDay sel => {| cur_day := sel; cur_time := cur_time i |}
  | SetTime sel => {| cur_day := cur_day i; cur_time := sel |}
  end.

(** The values a reactive calc takes along a run of events, from the
    inputs [i] on. *)
Fixpoint replay {A} (calc : list string → list string → Py A)
    (i : inputs) (evs : list event) : Py (list A) :=
  match evs with
  | [] => mret []
  | e :: evs' =>
      let i' := set_input e i in
      r ← calc (cur_day i') (cur_time i');
      rs ← replay calc i' evs';
      mret (r :: rs)
  end.

(** [filter_idx()] along a run; [df] is the address of the app's frame. *)
Definition session (df : addr) : inputs → list event → Py (list (list Z)) :=
  replay (filter_idx_py df).

(** [data_filtered()] along a run; the values are the addresses of the
    frames it returns. *)
Definition session_frames (tips : addr) : inputs → list event → Py (list addr) :=
  replay (data_filtered_py tips).

(** ** The adaptive filter facade

    The overrides and reset apps call [filter_server] and [reset_all] of
    the [shiny_adaptive_filter] package, whose code is not part of the
    sources at hand; only the calls and the override dicts are. *)

Module Facade.

(** Modelled from the spec: ColumnSpec's inferred kind (section 3). *)
Inductive ColumnKind := categorical | numeric | datetime.

(** Modelled from the spec: WidgetState, the value(s) chosen for one
    column's filter, with the default "no restriction" (section 3). *)
Inductive WidgetState :=
  | NoRestriction
  | Chosen (vals : list value)
  | Between (lo hi : Q).

(** Modelled from the spec: FilterKind as the capability set of section 9;
    every kind brings its predicate [matches(value, widgetState)], and a
    numeric kind rejects a column that is not numeric (section 4.2). *)
Record FilterKind := {
  kind_name : string;
  numeric_only : bool;
  matches : value → WidgetState → bool;
}.

(** Modelled from the spec: FilterOverride (section 3). In the override
    dicts of the apps [None] is [disable], a string is [relabel] and a
    filter object is [replace_with], with its optional label. *)
Inductive FilterOverride :=
  | disable
  | use_default
  | replace_with (k : FilterKind) (label : option string)
  | relabel (text : string).

(** Modelled from the spec: ColumnSpec (section 3). *)
Record ColumnSpec := {
  name : string;
  kind : ColumnKind;
  cardinality : nat;
}.

(** Modelled from the spec: WidgetSpec, a filter control for one column
    (glossary). *)
Record WidgetSpec := {
  ws_column : string;
  ws_kind : FilterKind;
  ws_label : string;
}.

Definition as_number (v : value) : option Q :=
  match v with
  | VInt z => Some (inject_Z z)
  | VFloat q => Some q
  | VStr _ => None
  end.

Definition value_eqb (v w : value) : bool :=
  match v, w with
  | VStr a, VStr b => String.eqb a b
  | VStr _, _ | _, VStr _ => false
  | _, _ =>
      match as_number v, as_number w with
      | Some a, Some b => Qeq_bool a b
      | _, _ => false
      end
  end.

Definition matches_chosen (v : value) (st : WidgetState) : bool :=
  match st with
  | NoRestriction => true
  | Chosen vals => existsb (value_eqb v) vals
  | Between _ _ => false
  end.

Definition matches_between (v : value) (st : WidgetState) : bool :=
  match st, as_number v with
  | NoRestriction, _ => true
  | Between lo hi, Some q => Qle_bool lo q && Qle_bool q hi
  | _, _ => false
  end.

(** Modelled from the spec: the filter kinds section 3 lists. *)
Definition CategoricalCheckbox : FilterKind :=
  {| kind_name := "CategoricalCheckbox"; numeric_only := false; matches := matches_chosen |}.
Definition CategoricalSelect : FilterKind :=
  {| kind_name := "CategoricalSelect"; numeric_only := false; matches := matches_chosen |}.
Definition NumericRange : FilterKind :=
  {| kind_name := "NumericRange"; numeric_only := true; matches := matches_between |}.
Definition NumericSlider : FilterKind :=
  {| kind_name := "NumericSlider"; numeric_only := true; matches := matches_between |}.
Definition DateRange : FilterKind :=
  {| kind_name := "DateRange"; numeric_only := false; matches := matches_between |}.

Definition is_number (v : value) : bool :=
  match v with
  | VInt _ | VFloat _ => true
  | VStr _ => false
  end.

Fixpoint distinct (vs : list value) : list value :=
  match vs with
  | [] => []
  | v :: vs' => if existsb (value_eqb v) vs' then distinct vs' else v :: distinct vs'
  end.

(** Modelled from the spec: the Column Profiler's [infer] (section 4.1):
    a numeric dtype is numeric, anything else falls back to categorical.
    The cell values at hand have no datetime. *)
Definition infer_column (c : string * list value) : ColumnSpec :=
  {| name := c.1;
     kind := if forallb is_number c.2 then numeric else categorical;
     cardinality := length (distinct c.2) |}.

Definition infer (table : frame) : list ColumnSpec :=
  infer_column <$> columns table.

Definition default_kind (k : ColumnKind) : FilterKind :=
  match k with
  | categorical => CategoricalSelect
  | numeric => NumericRange
  | datetime => DateRange
  end.

Definition compatible (k : FilterKind) (ck : ColumnKind) : bool :=
  if numeric_only k then
    match ck with
    | numeric => true
    | categorical | datetime => false
    end
  else true.

(** Modelled from the spec: the Filter Widget Registry's [resolve]
    (section 4.2). [None] is the disabled column, and the column whose
    replacement kind does not fit its values (ConfigurationError, section
    7: the column is excluded). *)
Definition resolve (cs : ColumnSpec) (o : option FilterOverride) : option WidgetSpec :=
  match o with
  | Some disable => None
  | None | Some use_default =>
      Some {| ws_column := name cs; ws_kind := default_kind (kind cs); ws_label := name cs |}
  | Some (replace_with k label) =>
      if compatible k (kind cs)
      then Some {| ws_column := name cs; ws_kind := k; ws_label := default (name cs) label |}
      else None
  | Some (relabel text) =>
      Some {| ws_column := name cs; ws_kind := default_kind (kind cs); ws_label := text |}
  end.

(** Modelled from the spec: the Filter State Store's [get] (section 4.3);
    a column without an entry is at its default. *)
Definition get (states : gmap string WidgetState) (column : string) : WidgetState :=
  default NoRestriction (states !! column).

(** Modelled from the spec: the Index Combiner's [combine] (section 4.4):
    start from all row identifiers and intersect in, for every widget whose
    state is not the default, the identifiers of the rows its predicate
    accepts. A disabled column has no widget and is never looked at. *)
Definition matched (table : frame) (w : WidgetSpec) (st : WidgetState) : gset Z :=
  match lookup_column (columns table) (ws_column w) with
  | Some vs => list_to_set (select ((λ v, matches (ws_kind w) v st) <$> vs) (index table))
  | None => list_to_set (index table)
  end.

Definition combine_step (table : frame) (states : gmap string WidgetState)
    (idx : gset Z) (w : WidgetSpec) : gset Z :=
  match get states (ws_column w) with
  | NoRestriction => idx
  | st => idx ∩ matched table w st
  end.

Definition combine (table : frame) (states : gmap string WidgetState)
    (widgets : list WidgetSpec) : gset Z :=
  foldl (combine_step table states) (list_to_set (index table)) widgets.

(** Modelled from the spec: the Adaptive Filter Facade (section 4.5):
    the widgets resolved for the table's columns, the state store, and the
    table it was created for. *)
Record facade := {
  table : frame;
  widgets : list WidgetSpec;
  states : gmap string WidgetState;
}.

(** Modelled from the spec: [create(table, overrides)] (section 4.5);
    every WidgetState starts at its default. An override for a column the
    table does not have is ignored (section 7). *)
Definition create (tbl : frame) (overrides : gmap string FilterOverride) : facade :=
  {| table := tbl;
     widgets := omap (λ cs, resolve cs (overrides !! name cs)) (infer tbl);
     states := ∅ |}.

(** Modelled from the spec: [filterIndex], the combined ResultIndex. *)
Definition filterIndex (fa : facade) : gset Z :=
  combine (table fa) (states fa) (widgets fa).

(** Modelled from the spec: the state store's [set(column, value)]. *)
Definition set (column : string) (st : WidgetState) (fa : facade) : facade :=
  {| table := table fa; widgets := widgets fa; states := <[column := st]> (states fa) |}.

(** Modelled from the spec: [resetAll()] restores every column's
    WidgetState to default, in one update (section 4.3). *)
Definition resetAll (fa : facade) : facade :=
  {| table := table fa; widgets := widgets fa;
     states := (λ _, NoRestriction) <$> states fa |}.

(** Modelled from the spec: what the host forwards to the facade during a
    session (section 6): [set(column, value)] calls and [resetAll()]. *)
Inductive action :=
  | CallSet (column : string) (st : WidgetState)
  | CallResetAll.

Definition act (fa : facade) (a : action) : facade :=
  match a with
  | CallSet column st => set column st fa
  | CallResetAll => resetAll fa
  end.

Definition run (fa : facade) (acts : list action) : facade := foldl act fa acts.

(** The override dicts of app-030-overrides.py, app-0010-030-overrides.py
    and app-040-reset.py. [FilterNumNumericRange] is the numeric range and
    [FilterCatNumericCheckbox] the checkbox kind. *)
Definition override_030 : gmap string FilterOverride :=
  list_to_map
    [ ("total_bill", disable);
      ("tips", replace_with NumericRange None);
      ("day", relabel "Day of Week");
      ("size", replace_with CategoricalCheckbox (Some "Party Size")) ].

Definition override_0010_030 : gmap string FilterOverride :=
  list_to_map [ ("total_bill", disable); ("tip", disable) ].

Definition override_040 : gmap string FilterOverride :=
  list_to_map
    [ ("total_bill", replace_with NumericRange None);
      ("tip", replace_with NumericRange None) ].

End Facade.

(** ** Evaluation orders and outcomes

    The statements below compare runs. [narrow] is the guarded block
    [filter_idx] repeats for each input (lines 17-19 and 21-23), for any
    column; [same_rows] and [same_outcome] relate two results. *)

Definition narrow (df : frame) (col : string) (selected : list string)
    (idx : gset Z) : result (gset Z) :=
  if truthy selected then
    s ← getitem df col;
    let current_idx := index (loc df (isin s selected)) in
    mret (idx ∩ list_to_set current_idx)
  else mret idx.

(** Both raise the same exception, or both return and the values are
    related. *)
Definition agree {A B} (R : A → B → Prop) (r1 : result A) (r2 : result B) : Prop :=
  match r1, r2 with
  | Ok a, Ok b => R a b
  | Raise e1, Raise e2 => e1 = e2
  | _, _ => False
  end.

(** Both raise, or both return the same value. *)
Definition same_outcome {A} (r1 r2 : result A) : Prop :=
  match r1, r2 with
  | Ok a, Ok b => a = b
  | Raise _, Raise _ => True
  | _, _ => False
  end.

(** A list the host can slice the frame with: no label twice, every label
    one of the frame's, and [df.loc[l]] does not raise. *)
Definition valid_index (df : frame) (l : list Z) : Prop :=
  NoDup l ∧ (∀ x, x ∈ l → x ∈ index df) ∧ is_Ok (loc_labels df l).

(** Two rows under one label, for the frames pandas allows but
    [pd.DataFrame(dict)] never builds. *)
Definition shared_label : frame :=
  Frame [0; 0] [("day", strs ["Sun"; "Fri"]); ("time", strs ["Lunch"; "Dinner"])].

(** ** The choices of the selectize inputs *)






(** ** Rows and cells, to state what the filters keep *)

(** The row at position [i]: for every column its cell there. *)
Definition row (df : frame) (i : nat) : list (string * option value) :=
  (λ c, (c.1, c.2 !! i)) <$> columns df.

(** The cell at position [i] of the column [s] passes the selection: there
    is no selection, or the cell is one of the selected strings. *)
Definition passes (selected : list string) (s : list value) (i : nat) : Prop :=
  selected = [] ∨ ∃ x, s !! i = Some (VStr x) ∧ x ∈ selected.

(** * Properties *)

Lemma tips_built : DataFrame data = Ok tips.
Proof. reflexivity. Qed.

Lemma df_tips_built : DataFrame df_tips_data = Ok df_tips.
Proof. reflexivity. Qed.

Lemma houses_built : DataFrame (columns houses) = Ok houses.
Proof. reflexivity. Qed.

(** On its own frame the sketch of pandas_hints.py stops at the first
    column lookup. *)
Lemma hints_on_houses filter_day filter_time :
  PandasHints.filter_idx houses filter_day filter_time = Raise (KeyError "day").
Proof. reflexivity. Qed.

(** ** Masks and slices *)

Section select.
Context {A : Type}.
Implicit Types (mask : list bool) (l : list A).

Lemma select_nil_r mask : select mask (@nil A) = [].
Proof. by destruct mask as [|[] ?]. Qed.

Lemma select_sublist mask l : select mask l `sublist_of` l.
Proof.
  revert l. induction mask as [|b mask IH]; intros [|x l]; simpl;
    try apply sublist_nil_l.
  destruct b; [by apply sublist_skip | by apply sublist_cons].
Qed.

Lemma elem_of_select mask l x :
  x ∈ select mask l ↔ ∃ i, mask !! i = Some true ∧ l !! i = Some x.
Proof.
  revert l. induction mask as [|b mask IH]; intros [|y l]; simpl.
  - rewrite elem_of_nil. split; [done | intros (i & Hi & _); by destruct i].
  - rewrite elem_of_nil. split; [done | intros (i & Hi & _); by destruct i].
  - rewrite elem_of_nil. split; [done | intros (i & _ & Hi); by destruct i].
  - destruct b.
    + rewrite elem_of_cons, IH. split.
      * intros [-> | (i & ? & ?)]; [by exists 0%nat | by exists (S i)].
      * intros ([|i] & ? & ?); simplify_eq/=; [by left | right; eauto].
    + rewrite IH. split.
      * intros (i & ? & ?); by exists (S i).
      * intros ([|i] & ? & ?); simplify_eq/=; eauto.
Qed.

Lemma elem_of_select_select mask1 mask2 l x :
  x ∈ select (select mask1 mask2) (select mask1 l) ↔
  ∃ i, mask1 !! i = Some true ∧ mask2 !! i = Some true ∧ l !! i = Some x.
Proof.
  revert mask2 l. induction mask1 as [|b mask1 IH]; intros mask2 l; simpl.
  - rewrite elem_of_nil. split; [done | intros (i & Hi & _); by destruct i].
  - destruct mask2 as [|c mask2].
    { simpl. rewrite elem_of_nil. split; [done | intros (i & _ & Hi & _); by destruct i]. }
    destruct l as [|y l].
    { rewrite select_nil_r, elem_of_nil.
      split; [done | intros (i & _ & _ & Hi); by destruct i]. }
    destruct b; simpl.
    + destruct c.
      * rewrite elem_of_cons, IH. split.
        -- intros [-> | (i & ? & ? & ?)]; [by exists 0%nat | by exists (S i)].
        -- intros ([|i] & ? & ? & ?); simplify_eq/=; [by left | right; eauto].
      * rewrite IH. split.
        -- intros (i & ? & ? & ?); by exists (S i).
        -- intros ([|i] & ? & ? & ?); simplify_eq/=; eauto.
    + rewrite IH. split.
      * intros (i & ? & ? & ?); by exists (S i).
      * intros ([|i] & ? & ? & ?); simplify_eq/=; eauto.
Qed.

Lemma select_elem_of mask l x : x ∈ select mask l → x ∈ l.
Proof. intros Hx. eapply elem_of_sublist; [done | apply select_sublist]. Qed.

Lemma select_NoDup mask l : NoDup l → NoDup (select mask l).
Proof. intros Hl. eapply sublist_NoDup; [done | apply select_sublist]. Qed.
End select.

Lemma select_fmap {A B} (f : A → B) (mask : list bool) (l : list A) :
  select mask (f <$> l) = f <$> select mask l.
Proof.
  revert l. induction mask as [|b mask IH]; intros [|x l]; simpl; try done.
  destruct b; simpl; by rewrite IH.
Qed.

Lemma isin_select mask s values : isin (select mask s) values = select mask (isin s values).
Proof. unfold isin. by rewrite select_fmap. Qed.

Lemma lookup_column_loc cols mask col :
  lookup_column ((λ c, (c.1, select mask c.2)) <$> cols) col
  = select mask <$> lookup_column cols col.
Proof.
  induction cols as [|[k vs] cols IH]; simpl; [done|].
  by destruct (String.eqb k col).
Qed.

Lemma getitem_loc df mask col :
  getitem (loc df mask) col = (vs ← getitem df col; mret (select mask vs)).
Proof.
  unfold getitem, loc; simpl. rewrite lookup_column_loc.
  by destruct (lookup_column (columns df) col).
Qed.

Lemma select_both {A} (l : list A) mask1 mask2 x :
  NoDup l →
  x ∈ select (select mask1 mask2) (select mask1 l) ↔
  x ∈ select mask1 l ∧ x ∈ select mask2 l.
Proof.
  intros Hl. rewrite elem_of_select_select, !elem_of_select. split.
  - intros (i & ? & ? & ?). split; by exists i.
  - intros [(i & ? & Hi) (j & ? & Hj)].
    assert (i = j) as -> by (eapply NoDup_lookup; eauto).
    by exists j.
Qed.

(** ** The combiner as two guarded intersections *)

Lemma filter_idx_set_narrow df filter_day filter_time :
  filter_idx_set df filter_day filter_time
  = narrow df "day" filter_day (list_to_set (index df))
      ≫= narrow df "time" filter_time.
Proof.
  unfold filter_idx_set, narrow.
  destruct (truthy filter_day), (truthy filter_time); simpl;
    destruct (getitem df "day"); simpl; try done;
    destruct (getitem df "time"); simpl; done.
Qed.


Lemma narrow_Ok df col selected idx s :
  getitem df col = Ok s →
  ∃ idx', narrow df col selected idx = Ok idx' ∧ idx' ⊆ idx ∧
    (truthy selected = true →
     idx' = idx ∩ list_to_set (select (isin s selected) (index df))).
Proof.
  intros Hs. unfold narrow. destruct (truthy selected); simpl.
  - rewrite Hs; simpl. eexists; split; [done|].
    split; [apply intersection_subseteq_l | done].
  - eexists; split; [done|]. split; [done | discriminate].
Qed.

Lemma narrow_subseteq df col selected idx idx' :
  narrow df col selected idx = Ok idx' → idx' ⊆ idx.
Proof.
  unfold narrow. destruct (truthy selected); simpl.
  - destruct (getitem df col); simpl; [|done]. intros [= <-].
    apply intersection_subseteq_l.
  - by intros [= <-].
Qed.

(** ** C1: intersection against the sequential scan *)

(** C1. On a frame whose row labels are unique, the set-intersecting
    [filter_idx] and the column-by-column [data_filtered] have the same
    outcome for every pair of selections: they raise the same KeyError, or
    the returned list of labels holds exactly the labels of the rows of the
    returned frame, each once. *)
Theorem filter_idx_refines_data_filtered df filter_day filter_time :
  unique_index df →
  agree (λ (l : list Z) (df' : frame), l ≡ₚ index df')
        (filter_idx df filter_day filter_time)
        (data_filtered df filter_day filter_time).
Proof.
  intros Hu. unfold filter_idx, filter_idx_set, data_filtered.
  assert (∀ (X : gset Z) l, NoDup l → (∀ x, x ∈ X ↔ x ∈ l) → elements X ≡ₚ l)
    as Hperm.
  { intros X l Hl HX. apply NoDup_Permutation; [apply NoDup_elements | done |].
    intros x. by rewrite elem_of_elements. }
  destruct (truthy filter_day); simpl.
  - destruct (getitem df "day") as [day|e]; simpl; [|done].
    destruct (truthy filter_time); simpl.
    + rewrite getitem_loc.
      destruct (getitem df "time") as [time|e]; simpl; [|done].
      rewrite isin_select. apply Hperm.
      * by do 2 apply select_NoDup.
      * intros x. rewrite select_both by done.
        rewrite !elem_of_intersection, !elem_of_list_to_set.
        split; [tauto|]. intros [H1 H2]. eauto using select_elem_of.
    + apply Hperm; [by apply select_NoDup|].
      intros x. rewrite elem_of_intersection, !elem_of_list_to_set.
      split; [tauto|]. eauto using select_elem_of.
  - destruct (truthy filter_time); simpl.
    + destruct (getitem df "time") as [time|e]; simpl; [|done].
      apply Hperm; [by apply select_NoDup|].
      intros x. rewrite elem_of_intersection, !elem_of_list_to_set.
      split; [tauto|]. eauto using select_elem_of.
    + apply Hperm; [done|]. intros x. by rewrite elem_of_list_to_set.
Qed.

Lemma RangeIndex_NoDup n : NoDup (RangeIndex n).
Proof.
  unfold RangeIndex. apply NoDup_fmap_2; [apply _ | apply NoDup_seq].
Qed.

(** Every frame [pd.DataFrame] builds from a dict has unique labels and
    columns as long as its index. *)
Lemma DataFrame_unique_index d df : DataFrame d = Ok df → unique_index df.
Proof.
  unfold DataFrame, unique_index. destruct d as [|[k c] d].
  - intros [= <-]. constructor.
  - destruct (forallb _ _); [|done]. intros [= <-]. apply RangeIndex_NoDup.
Qed.


Lemma tips_unique_index : unique_index tips.
Proof. apply (DataFrame_unique_index _ _ tips_built). Qed.

Lemma df_tips_unique_index : unique_index df_tips.
Proof. apply (DataFrame_unique_index _ _ df_tips_built). Qed.

Lemma filter_idx_refines_data_filtered_witness :
  unique_index tips ∧
  agree (λ (l : list Z) (df' : frame), l ≡ₚ index df')
        (filter_idx tips ["Sun"] ["Dinner"])
        (data_filtered tips ["Sun"] ["Dinner"]).
Proof.
  split; [apply tips_unique_index|].
  apply (filter_idx_refines_data_filtered tips ["Sun"] ["Dinner"]).
  apply tips_unique_index.
Defined.

(** Without unique labels the two disagree: two rows share label 0, one is
    a Sunday lunch and one a Friday dinner. *)
Lemma shared_label_disagrees :
  filter_idx shared_label ["Sun"] ["Dinner"] = Ok [0] ∧
  index <$> data_filtered shared_label ["Sun"] ["Dinner"] = Ok [].
Proof. split; reflexivity. Qed.

(** ** C2: default inputs *)

(** C2. With both selectize inputs at their default (nothing selected)
    [filter_idx] returns, on every frame, a duplicate-free list of exactly
    the row labels of the frame. An input at its default adds no
    constraint: with [filter_time] empty the set is the one the day block
    alone computes, whatever the time column holds, and likewise with
    [filter_day] empty. The function takes no override map, so this holds
    under every one. *)
Theorem filter_idx_default df :
  (∃ l, filter_idx df [] [] = Ok l ∧ NoDup l ∧ ∀ x, x ∈ l ↔ x ∈ index df)
  ∧ (∀ filter_day,
       filter_idx_set df filter_day []
       = narrow df "day" filter_day (list_to_set (index df)))
  ∧ (∀ filter_time,
       filter_idx_set df [] filter_time
       = narrow df "time" filter_time (list_to_set (index df))).
Proof.
  split; [|split].
  - exists (elements (list_to_set (index df) : gset Z)).
    split; [done|]. split; [apply NoDup_elements|].
    intros x. by rewrite elem_of_elements, elem_of_list_to_set.
  - intros filter_day. rewrite filter_idx_set_narrow.
    by destruct (narrow df "day" filter_day _).
  - intros filter_time. by rewrite filter_idx_set_narrow.
Qed.

(** ** C3: the scenario on the five-row table *)

(** The day column of [data] has four "Sun" cells, not three. *)
Lemma tips_scenario_counts_differ :
  ¬ ((length ∘ index) <$> data_filtered tips ["Sun"] [] = Ok 3%nat
     ∧ (length ∘ index) <$> data_filtered tips ["Sun"] ["Dinner"] = Ok 2%nat
     ∧ (length ∘ index) <$> data_filtered tips [] [] = Ok 5%nat).
Proof. intros [H _]. vm_compute in H. discriminate. Qed.

(** C3, amended. On [tips], selecting day {Sun} keeps the rows labelled
    0, 1, 2 and 4, the four rows whose day is "Sun"; selecting time
    {Dinner} as well keeps rows 1, 2 and 4, the three whose day is "Sun"
    and whose time is "Dinner"; with both inputs cleared all five rows are
    back. [filter_idx] returns the same labels at each step. *)
Theorem tips_scenario :
  ∃ sun sun_dinner,
    data_filtered tips ["Sun"] [] = Ok sun
    ∧ index sun = [0; 1; 2; 4]
    ∧ getitem sun "day" = Ok (strs ["Sun"; "Sun"; "Sun"; "Sun"])
    ∧ getitem tips "day" = Ok (strs ["Sun"; "Sun"; "Sun"; "Fri"; "Sun"])
    ∧ data_filtered tips ["Sun"] ["Dinner"] = Ok sun_dinner
    ∧ index sun_dinner = [1; 2; 4]
    ∧ getitem sun_dinner "day" = Ok (strs ["Sun"; "Sun"; "Sun"])
    ∧ getitem sun_dinner "time" = Ok (strs ["Dinner"; "Dinner"; "Dinner"])
    ∧ getitem tips "time" = Ok (strs ["Lunch"; "Dinner"; "Dinner"; "Dinner"; "Dinner"])
    ∧ data_filtered tips [] [] = Ok tips
    ∧ index tips = [0; 1; 2; 3; 4]
    ∧ filter_idx_set tips ["Sun"] [] = Ok (list_to_set [0; 1; 2; 4])
    ∧ filter_idx_set tips ["Sun"] ["Dinner"] = Ok (list_to_set [1; 2; 4])
    ∧ filter_idx_set tips [] [] = Ok (list_to_set [0; 1; 2; 3; 4]).
Proof.
  eexists _, _. split; [reflexivity|]. do 3 (split; [reflexivity|]).
  split; [reflexivity|]. do 6 (split; [reflexivity|]).
  repeat split; vm_compute; reflexivity.
Qed.

(** ** C6: the order of the intersections *)

Lemma narrow_comm df colA colB selA selB idx :
  same_outcome (narrow df colA selA idx ≫= narrow df colB selB)
               (narrow df colB selB idx ≫= narrow df colA selA).
Proof.
  unfold narrow.
  destruct (truthy selA), (truthy selB); simpl;
    destruct (getitem df colA) as [sA|eA]; simpl; try done;
    destruct (getitem df colB) as [sB|eB]; simpl; try done.
  apply set_eq. intros x. rewrite !elem_of_intersection. tauto.
Qed.

(** C6. For every frame, any two columns A and B, any selections and any
    starting set, intersecting for A and then for B has the same outcome
    as intersecting for B and then for A: both raise, or both return the
    same set. In particular [filter_idx], which takes day before time,
    returns the set that taking time before day returns. *)
Theorem filter_idx_order_independent df :
  (∀ colA colB selA selB idx,
     same_outcome (narrow df colA selA idx ≫= narrow df colB selB)
                  (narrow df colB selB idx ≫= narrow df colA selA))
  ∧ (∀ filter_day filter_time,
       same_outcome
         (filter_idx_set df filter_day filter_time)
         (narrow df "time" filter_time (list_to_set (index df))
            ≫= narrow df "day" filter_day)).
Proof.
  split.
  - intros. apply narrow_comm.
  - intros. rewrite filter_idx_set_narrow. apply narrow_comm.
Qed.

(** ** C7: the empty result *)

Lemma filter_idx_set_Ok df filter_day filter_time :
  is_Ok (getitem df "day") → is_Ok (getitem df "time") →
  ∃ idx, filter_idx_set df filter_day filter_time = Ok idx
         ∧ idx ⊆ list_to_set (index df).
Proof.
  intros [day Hday] [time Htime]. rewrite filter_idx_set_narrow.
  destruct (narrow_Ok df "day" filter_day (list_to_set (index df)) day Hday)
    as (idx1 & -> & Hsub1 & _).
  destruct (narrow_Ok df "time" filter_time idx1 time Htime)
    as (idx2 & H2 & Hsub2 & _).
  exists idx2. split; [done|]. by etrans.
Qed.

Lemma filter_idx_Ok df filter_day filter_time :
  is_Ok (getitem df "day") → is_Ok (getitem df "time") →
  is_Ok (filter_idx df filter_day filter_time).
Proof.
  intros Hd Ht.
  destruct (filter_idx_set_Ok df filter_day filter_time Hd Ht) as (idx & H & _).
  unfold filter_idx. rewrite H. by eexists.
Qed.

(** C7. On a frame with a day and a time column [filter_idx] returns for
    every pair of selections; when the intersection is the empty set it
    returns the empty list. On [df_tips], the table of the app, it returns
    for every input, and selecting {Fri} and {Lunch} gives the empty
    list. *)
Theorem filter_idx_never_raises :
  (∀ df filter_day filter_time,
     is_Ok (getitem df "day") → is_Ok (getitem df "time") →
     is_Ok (filter_idx df filter_day filter_time))
  ∧ (∀ df filter_day filter_time,
       filter_idx_set df filter_day filter_time = Ok ∅ →
       filter_idx df filter_day filter_time = Ok [])
  ∧ (∀ filter_day filter_time, is_Ok (filter_idx df_tips filter_day filter_time))
  ∧ filter_idx df_tips ["Fri"] ["Lunch"] = Ok [].
Proof.
  split; [|split; [|split]].
  - apply filter_idx_Ok.
  - intros df filter_day filter_time H. unfold filter_idx. rewrite H. simpl.
    by rewrite elements_empty.
  - intros. apply filter_idx_Ok; by eexists.
  - reflexivity.
Qed.

Lemma filter_idx_never_raises_witness :
  is_Ok (filter_idx tips ["Sat"] ["Lunch"])
  ∧ filter_idx tips ["Fri"] ["Lunch"] = Ok [].
Proof.
  destruct filter_idx_never_raises as (Htotal & Hempty & _).
  split.
  - apply (Htotal tips ["Sat"] ["Lunch"]); by eexists.
  - apply (Hempty tips ["Fri"] ["Lunch"]). vm_compute. reflexivity.
Defined.

(** ** C9: the returned list *)

Lemma getitem_Raise df col e : getitem df col = Raise e → e = KeyError col.
Proof.
  unfold getitem. destruct (lookup_column _ _); [done|]. by intros [= <-].
Qed.

Lemma narrow_Raise df col selected idx e :
  narrow df col selected idx = Raise e →
  e = KeyError col ∧ getitem df col = Raise e.
Proof.
  unfold narrow. destruct (truthy selected); [|done].
  destruct (getitem df col) as [s|e'] eqn:Hs; simpl; [done|].
  intros [= <-]. split; [|done]. by eapply getitem_Raise.
Qed.

Lemma valid_index_elements df (idx : gset Z) :
  idx ⊆ list_to_set (index df) → valid_index df (elements idx).
Proof.
  intros Hsub.
  assert (∀ x, x ∈ elements idx → x ∈ index df) as Hin.
  { intros x Hx. apply elem_of_elements, Hsub in Hx.
    by apply elem_of_list_to_set in Hx. }
  split; [apply NoDup_elements|]. split; [done|].
  unfold loc_labels.
  destruct (forallb _ _) eqn:Hall; [by eexists|].
  exfalso. apply not_true_iff_false in Hall. apply Hall.
  apply forallb_forall. intros x Hx.
  by apply bool_decide_eq_true, Hin, list_elem_of_In.
Qed.

(** C9. For every frame and every pair of selections, [filter_idx]
    either returns a list without duplicates whose elements are all row
    labels of the frame, fit to slice the frame with, or raises the
    KeyError of a column the frame does not have. The same holds for the
    guard-free [filter_idx] of pandas_hints.py. *)
Theorem filter_idx_valid_index df filter_day filter_time :
  match filter_idx df filter_day filter_time with
  | Ok l => valid_index df l
  | Raise e => ∃ col, e = KeyError col ∧ getitem df col = Raise e
  end
  ∧
  match PandasHints.filter_idx df filter_day filter_time with
  | Ok l => valid_index df l
  | Raise e => ∃ col, e = KeyError col ∧ getitem df col = Raise e
  end.
Proof.
  split.
  - unfold filter_idx. rewrite filter_idx_set_narrow.
    destruct (narrow df "day" _ _) as [idx1|e] eqn:H1; simpl.
    + destruct (narrow df "time" _ _) as [idx2|e] eqn:H2; simpl.
      * apply valid_index_elements.
        etrans; [by eapply narrow_subseteq|]. by eapply narrow_subseteq.
      * exists "time". by eapply narrow_Raise.
    + exists "day". by eapply narrow_Raise.
  - unfold PandasHints.filter_idx.
    destruct (getitem df "day") as [day|e] eqn:Hday; simpl.
    + destruct (getitem df "time") as [time|e] eqn:Htime; simpl.
      * apply valid_index_elements.
        etrans; [apply intersection_subseteq_l|]. apply intersection_subseteq_l.
      * exists "time". split; [by eapply getitem_Raise | done].
    + exists "day". split; [by eapply getitem_Raise | done].
Qed.




Lemma data_filtered_idx_Ok df filter_day filter_time :
  is_Ok (getitem df "day") → is_Ok (getitem df "time") →
  is_Ok (data_filtered_idx df filter_day filter_time).
Proof.
  intros Hday Htime. unfold data_filtered_idx, filter_idx.
  destruct (filter_idx_set_Ok df filter_day filter_time Hday Htime)
    as (idx & -> & Hsub). simpl.
  apply (valid_index_elements df idx Hsub).
Qed.

(** ** C10: one more filter never adds rows *)

(** C10. For every frame and every pair of selections: whenever
    [filter_idx] returns with the day and the time selection, it also
    returns with the day selection alone, every label of the first list is
    in the second, and every label of the second is a row label of the
    frame. On a frame with a day and a time column it always returns. *)
Theorem filter_idx_monotone df filter_day filter_time :
  (∀ both, filter_idx df filter_day filter_time = Ok both →
     ∃ day_only, filter_idx df filter_day [] = Ok day_only
                 ∧ both ⊆ day_only ∧ day_only ⊆ index df)
  ∧ (is_Ok (getitem df "day") → is_Ok (getitem df "time") →
     is_Ok (filter_idx df filter_day filter_time)).
Proof.
  split; [|apply filter_idx_Ok].
  intros both. unfold filter_idx. rewrite !filter_idx_set_narrow.
  destruct (narrow df "day" _ _) as [idx1|e] eqn:H1; simpl; [|done].
  destruct (narrow df "time" _ _) as [idx2|e] eqn:H2; simpl; [|done].
  intros [= <-]. eexists; split; [done|].
  apply narrow_subseteq in H1, H2. split.
  - intros x. rewrite !elem_of_elements. apply H2.
  - intros x Hx. apply elem_of_elements, H1 in Hx.
    by apply elem_of_list_to_set in Hx.
Qed.

Lemma filter_idx_monotone_witness :
  (∃ day_only, filter_idx tips ["Sun"] [] = Ok day_only
               ∧ [4; 2; 1] ⊆ day_only ∧ day_only ⊆ index tips)
  ∧ is_Ok (filter_idx tips ["Sun"] ["Dinner"]).
Proof.
  destruct (filter_idx_monotone tips ["Sun"] ["Dinner"]) as [Hsub Htotal].
  split.
  - apply (Hsub [4; 2; 1]). vm_compute. reflexivity.
  - apply Htotal; by eexists.
Defined.

(** ** C8: the frame in the store *)

Section store.
Implicit Types (h : gmap addr frame) (f : frame).

Lemma Py_bind_Ok {A B} (m : Py A) (k : A → Py B) h a h' :
  m h = Ok (a, h') → (m ≫= k) h = k a h'.
Proof. unfold mbind, Py_bind. by intros ->. Qed.

Lemma Py_bind_Raise {A B} (m : Py A) (k : A → Py B) h e :
  m h = Raise e → (m ≫= k) h = Raise e.
Proof. unfold mbind, Py_bind. by intros ->. Qed.

Lemma deref_Ok h r f : h !! r = Some f → deref r h = Ok (f, h).
Proof. unfold deref. by intros ->. Qed.

Lemma py_index_Ok h df f : h !! df = Some f → py_index df h = Ok (index f, h).
Proof. intros Hdf. unfold py_index. by rewrite (Py_bind_Ok _ _ _ _ _ (deref_Ok _ _ _ Hdf)). Qed.

Lemma py_getitem_Ok h df f col s :
  h !! df = Some f → getitem f col = Ok s → py_getitem df col h = Ok (s, h).
Proof.
  intros Hdf Hs. unfold py_getitem.
  rewrite (Py_bind_Ok _ _ _ _ _ (deref_Ok _ _ _ Hdf)). unfold lift. by rewrite Hs.
Qed.

Lemma py_getitem_Raise h df f col e :
  h !! df = Some f → getitem f col = Raise e → py_getitem df col h = Raise e.
Proof.
  intros Hdf Hs. unfold py_getitem.
  rewrite (Py_bind_Ok _ _ _ _ _ (deref_Ok _ _ _ Hdf)). unfold lift. by rewrite Hs.
Qed.

Lemma fresh_unused h : h !! fresh (dom h) = None.
Proof. apply not_elem_of_dom, is_fresh. Qed.

Lemma py_loc_Ok h df f mask :
  h !! df = Some f →
  py_loc df mask h = Ok (fresh (dom h), <[fresh (dom h) := loc f mask]> h).
Proof.
  intros Hdf. unfold py_loc.
  by rewrite (Py_bind_Ok _ _ _ _ _ (deref_Ok _ _ _ Hdf)).
Qed.

Lemma new_extends h f : h ⊆ <[fresh (dom h) := f]> h.
Proof. apply insert_subseteq, fresh_unused. Qed.

(** One guarded block of [filter_idx_py] does what [narrow] does and
    keeps every object of the store. *)
Lemma narrow_py h df f col selected (idx : gset Z) :
  h !! df = Some f →
  agree (λ (r : gset Z * gmap addr frame) idx', r.1 = idx' ∧ h ⊆ r.2)
    ((if truthy selected then
        s ← py_getitem df col;
        sliced ← py_loc df (isin s selected);
        current_idx ← py_index sliced;
        mret (idx ∩ list_to_set current_idx)
      else mret idx) h)
    (narrow f col selected idx).
Proof.
  intros Hdf. unfold narrow. destruct (truthy selected); simpl; [|done].
  destruct (getitem f col) as [s|e] eqn:Hs; simpl.
  - rewrite (Py_bind_Ok _ _ _ _ _ (py_getitem_Ok _ _ _ _ _ Hdf Hs)).
    rewrite (Py_bind_Ok _ _ _ _ _ (py_loc_Ok _ _ _ _ Hdf)).
    erewrite Py_bind_Ok; [|apply py_index_Ok, lookup_insert_eq].
    simpl. split; [done | apply new_extends].
  - by rewrite (Py_bind_Raise _ _ _ _ (py_getitem_Raise _ _ _ _ _ Hdf Hs)).
Qed.

(** [filter_idx_py] returns what [filter_idx] returns on the frame the
    address holds, and the store it leaves extends the one it found. *)
Lemma filter_idx_py_spec h df f filter_day filter_time :
  h !! df = Some f →
  agree (λ (r : list Z * gmap addr frame) l, r.1 = l ∧ h ⊆ r.2)
    (filter_idx_py df filter_day filter_time h)
    (filter_idx f filter_day filter_time).
Proof.
  intros Hdf. unfold filter_idx_py, filter_idx.
  rewrite filter_idx_set_narrow.
  rewrite (Py_bind_Ok _ _ _ _ _ (py_index_Ok _ _ _ Hdf)).
  pose proof (narrow_py h df f "day" filter_day (list_to_set (index f)) Hdf) as H1.
  unfold mbind at 1, Py_bind at 1.
  destruct (narrow f "day" _ _) as [idx1|e1]; simpl in *;
    match type of H1 with agree _ ?m _ => destruct m as [[i1 h1]|] end;
    try done.
  simpl in H1. destruct H1 as [-> Hsub1].
  assert (h1 !! df = Some f) as Hdf1 by (by eapply lookup_weaken).
  pose proof (narrow_py h1 df f "time" filter_time idx1 Hdf1) as H2.
  unfold mbind at 1, Py_bind at 1.
  destruct (narrow f "time" _ _) as [idx2|e2]; simpl in *;
    match type of H2 with agree _ ?m _ => destruct m as [[i2 h2]|] end;
    try done.
  simpl in H2. destruct H2 as [-> Hsub2].
  split; [done | by etrans].
Qed.
End store.

Section sessions.
Implicit Types (h : gmap addr frame) (f : frame).

(** Related runs stay related through a bind. *)
Lemma agree_bind {A B A' B'} (R : A * gmap addr frame → A' → Prop)
    (S : B * gmap addr frame → B' → Prop)
    (m : Py A) (m' : result A') (k : A → Py B) (k' : A' → result B') h :
  agree R (m h) m' →
  (∀ a h1 a', R (a, h1) a' → agree S (k a h1) (k' a')) →
  agree S ((m ≫= k) h) (m' ≫= k').
Proof.
  intros Hm Hk. unfold mbind at 1, Py_bind. unfold mbind, result_bind.
  destruct (m h) as [[a h1]|e], m' as [a'|e']; try done.
  by apply Hk.
Qed.

(** One guarded block of [data_filtered_py]: the address it returns
    holds the frame the block of [data_filtered] returns. *)
Lemma slice_py h df f col selected :
  h !! df = Some f →
  agree (λ (r : addr * gmap addr frame) f', r.2 !! r.1 = Some f' ∧ h ⊆ r.2)
    ((if truthy selected then
        s ← py_getitem df col;
        py_loc df (isin s selected)
      else mret df) h)
    (if truthy selected then
       s ← getitem f col;
       mret (loc f (isin s selected))
     else mret f).
Proof.
  intros Hdf. destruct (truthy selected); simpl; [|done].
  destruct (getitem f col) as [s|e] eqn:Hs; simpl.
  - rewrite (Py_bind_Ok _ _ _ _ _ (py_getitem_Ok _ _ _ _ _ Hdf Hs)).
    rewrite (py_loc_Ok _ _ _ _ Hdf). simpl.
    split; [apply lookup_insert_eq | apply new_extends].
  - by rewrite (Py_bind_Raise _ _ _ _ (py_getitem_Raise _ _ _ _ _ Hdf Hs)).
Qed.

Lemma data_filtered_py_spec h tips f filter_day filter_time :
  h !! tips = Some f →
  agree (λ (r : addr * gmap addr frame) f', r.2 !! r.1 = Some f' ∧ h ⊆ r.2)
    (data_filtered_py tips filter_day filter_time h)
    (data_filtered f filter_day filter_time).
Proof.
  intros Hdf. unfold data_filtered_py, data_filtered. cbv zeta.
  eapply agree_bind; [by apply slice_py|].
  intros r1 h1 f1 [Hr1 Hsub1]; simpl in Hr1, Hsub1.
  eapply agree_bind; [by apply slice_py|].
  intros r2 h2 f2 [Hr2 Hsub2]; simpl in Hr2, Hsub2.
  simpl. split; [done | by etrans].
Qed.

Lemma data_filtered_Ok f filter_day filter_time :
  is_Ok (getitem f "day") → is_Ok (getitem f "time") →
  is_Ok (data_filtered f filter_day filter_time).
Proof.
  intros [day Hday] [time Htime]. unfold data_filtered.
  destruct (truthy filter_day); simpl.
  - rewrite Hday; simpl. destruct (truthy filter_time); simpl; [|by eexists].
    rewrite getitem_loc, Htime; simpl. by eexists.
  - destruct (truthy filter_time); simpl; [|by eexists].
    rewrite Htime; simpl. by eexists.
Qed.

(** A calc that only ever extends the store, replayed over any events,
    only extends the store. *)
Lemma replay_extends {A} (calc : list string → list string → Py A) h :
  (∀ fd ft h0 a h1, h ⊆ h0 → calc fd ft h0 = Ok (a, h1) → h0 ⊆ h1) →
  ∀ evs i h0 rs h', h ⊆ h0 → replay calc i evs h0 = Ok (rs, h') → h0 ⊆ h'.
Proof.
  intros Hcalc evs. induction evs as [|e evs IH]; intros i h0 rs h' Hh0; simpl.
  - by intros [= _ <-].
  - unfold mbind at 1, Py_bind at 1.
    destruct (calc _ _ h0) as [[r h1]|] eqn:Hr; [|done].
    unfold mbind at 1, Py_bind at 1.
    destruct (replay calc _ evs h1) as [[rs1 h2]|] eqn:Hrs; [|done].
    intros [= _ <-].
    assert (h0 ⊆ h1) by eauto.
    etrans; [done|]. eapply IH; [|done]. by etrans.
Qed.

Lemma replay_Ok {A} (calc : list string → list string → Py A) h :
  (∀ fd ft h0, h ⊆ h0 → ∃ a h1, calc fd ft h0 = Ok (a, h1) ∧ h0 ⊆ h1) →
  ∀ evs i h0, h ⊆ h0 → is_Ok (replay calc i evs h0).
Proof.
  intros Hcalc evs. induction evs as [|e evs IH]; intros i h0 Hh0; simpl.
  - by eexists.
  - destruct (Hcalc (cur_day (set_input e i)) (cur_time (set_input e i)) h0 Hh0)
      as (r & h1 & Hr & Hsub).
    rewrite (Py_bind_Ok _ _ _ _ _ Hr).
    destruct (IH (set_input e i) h1) as [[rs h2] Hrs]; [by etrans|].
    rewrite (Py_bind_Ok _ _ _ _ _ Hrs). by eexists.
Qed.
End sessions.

(** C8. Let [df] be an address of the store holding the table [t]. Over
    every run of input changes, each followed by a recomputation of
    [filter_idx] (or of [data_filtered]), a run that returns leaves every
    object the store held where it was and as it was, so [df] still holds
    [t]: the calcs only add new objects. On a table with a day and a time
    column every run returns. *)
Theorem table_never_mutated (h : gmap addr frame) df t i evs :
  h !! df = Some t →
  (∀ rs h', session df i evs h = Ok (rs, h') → h ⊆ h' ∧ h' !! df = Some t)
  ∧ (∀ rs h', session_frames df i evs h = Ok (rs, h') → h ⊆ h' ∧ h' !! df = Some t)
  ∧ (is_Ok (getitem t "day") → is_Ok (getitem t "time") →
     is_Ok (session df i evs h) ∧ is_Ok (session_frames df i evs h)).
Proof.
  intros Hdf.
  assert (∀ h0, h ⊆ h0 → h0 !! df = Some t) as Hkeep
    by (intros h0 Hh0; by eapply lookup_weaken).
  assert (∀ fd ft h0 a h1, h ⊆ h0 → filter_idx_py df fd ft h0 = Ok (a, h1) → h0 ⊆ h1)
    as Hidx.
  { intros fd ft h0 a h1 Hh0 Hrun.
    pose proof (filter_idx_py_spec h0 df t fd ft (Hkeep _ Hh0)) as Hs.
    rewrite Hrun in Hs. destruct (filter_idx t fd ft); [|done]. apply Hs. }
  assert (∀ fd ft h0 a h1, h ⊆ h0 → data_filtered_py df fd ft h0 = Ok (a, h1) → h0 ⊆ h1)
    as Hfr.
  { intros fd ft h0 a h1 Hh0 Hrun.
    pose proof (data_filtered_py_spec h0 df t fd ft (Hkeep _ Hh0)) as Hs.
    rewrite Hrun in Hs. destruct (data_filtered t fd ft); [|done]. apply Hs. }
  split; [|split].
  - intros rs h' Hrun.
    assert (h ⊆ h') by (eapply (replay_extends _ h Hidx); [|done]; done).
    split; [done | by apply Hkeep].
  - intros rs h' Hrun.
    assert (h ⊆ h') by (eapply (replay_extends _ h Hfr); [|done]; done).
    split; [done | by apply Hkeep].
  - intros Hday Htime. split.
    + apply (replay_Ok _ h); [|done]. intros fd ft h0 Hh0.
      pose proof (filter_idx_py_spec h0 df t fd ft (Hkeep _ Hh0)) as Hs.
      destruct (filter_idx_Ok t fd ft Hday Htime) as [l Hl]. rewrite Hl in Hs.
      destruct (filter_idx_py df fd ft h0) as [[a h1]|]; [|done].
      exists a, h1. split; [done | apply Hs].
    + apply (replay_Ok _ h); [|done]. intros fd ft h0 Hh0.
      pose proof (data_filtered_py_spec h0 df t fd ft (Hkeep _ Hh0)) as Hs.
      destruct (data_filtered_Ok t fd ft Hday Htime) as [l Hl]. rewrite Hl in Hs.
      destruct (data_filtered_py df fd ft h0) as [[a h1]|]; [|done].
      exists a, h1. split; [done | apply Hs].
Qed.

Lemma table_never_mutated_witness :
  ({[ 0%nat := tips ]} : gmap addr frame) !! 0%nat = Some tips
  ∧ ∃ rs h',
      session 0%nat (Inputs [] [])
        [SetDay ["Sun"]; SetTime ["Dinner"]; SetDay []; SetTime []]
        {[ 0%nat := tips ]} = Ok (rs, h')
      ∧ h' !! 0%nat = Some tips.
Proof.
  assert (({[ 0%nat := tips ]} : gmap addr frame) !! 0%nat = Some tips) as Hdf
    by reflexivity.
  split; [exact Hdf|].
  destruct (table_never_mutated {[ 0%nat := tips ]} 0%nat tips (Inputs [] [])
              [SetDay ["Sun"]; SetTime ["Dinner"]; SetDay []; SetTime []]
              Hdf) as (Hkeep & _ & Htotal).
  destruct Htotal as [[[rs h'] Hrun] _]; [by eexists | by eexists |].
  exists rs, h'. split; [done|]. by apply (Hkeep rs h').
Defined.

(** ** C4 and C5: the facade *)

Section facade.
Import Facade.
Implicit Types (tbl : frame) (fa : facade) (ws : list WidgetSpec).
Implicit Types (sts : gmap string WidgetState).

Lemma run_table fa acts : table (run fa acts) = table fa.
Proof.
  revert fa. induction acts as [|a acts IH]; intros fa; simpl; [done|].
  unfold run in IH. rewrite IH. by destruct a.
Qed.

Lemma run_widgets fa acts : widgets (run fa acts) = widgets fa.
Proof.
  revert fa. induction acts as [|a acts IH]; intros fa; simpl; [done|].
  unfold run in IH. rewrite IH. by destruct a.
Qed.

(** [combine] reads the state store at the columns of the widgets
    only. *)
Lemma combine_ext tbl sts1 sts2 ws :
  (∀ w, w ∈ ws → get sts1 (ws_column w) = get sts2 (ws_column w)) →
  combine tbl sts1 ws = combine tbl sts2 ws.
Proof.
  unfold combine. generalize (list_to_set (index tbl) : gset Z).
  induction ws as [|w ws IH]; intros idx Hws; simpl; [done|].
  assert (combine_step tbl sts1 idx w = combine_step tbl sts2 idx w) as ->.
  { unfold combine_step. rewrite (Hws w); [done | by left]. }
  apply IH. intros w' Hw'. apply Hws. by right.
Qed.

Lemma combine_default tbl sts ws :
  (∀ column, get sts column = NoRestriction) →
  combine tbl sts ws = list_to_set (index tbl).
Proof.
  intros Hdef. unfold combine. generalize (list_to_set (index tbl) : gset Z).
  induction ws as [|w ws IH]; intros idx; simpl; [done|].
  unfold combine_step at 2. by rewrite Hdef.
Qed.

Lemma get_resetAll fa column : get (states (resetAll fa)) column = NoRestriction.
Proof.
  unfold get, resetAll; simpl. rewrite lookup_fmap.
  by destruct (states fa !! column).
Qed.

Lemma resolve_column cs o w : resolve cs o = Some w → ws_column w = name cs.
Proof.
  unfold resolve. destruct o as [[| |k label|text]|]; try by intros [= <-].
  destruct (compatible _ _); [|done]. by intros [= <-].
Qed.

(** A disabled column gets no widget. *)
Lemma disabled_no_widget tbl overrides column w :
  overrides !! column = Some disable →
  w ∈ widgets (create tbl overrides) → ws_column w ≠ column.
Proof.
  intros Hdis Hw Hcol. unfold create in Hw; simpl in Hw.
  apply list_elem_of_omap in Hw as (cs & _ & Hres).
  pose proof (resolve_column _ _ _ Hres) as Hname.
  rewrite <-Hname, Hcol, Hdis in Hres. done.
Qed.
End facade.

(** The widgets the facade makes for the override dicts of the apps:
    none for a column set to [None], and none for the key "tips" of
    app-030-overrides.py, which names no column of the table. *)
Lemma widgets_override_030 :
  Facade.ws_column <$> Facade.widgets (Facade.create tips Facade.override_030)
  = ["tip"; "sex"; "smoker"; "day"; "time"; "size"]
  ∧ Facade.ws_label <$> Facade.widgets (Facade.create tips Facade.override_030)
    = ["tip"; "sex"; "smoker"; "Day of Week"; "time"; "Party Size"].
Proof. split; reflexivity. Qed.

Lemma widgets_override_0010_030 :
  Facade.ws_column <$> Facade.widgets (Facade.create tips Facade.override_0010_030)
  = ["sex"; "smoker"; "day"; "time"; "size"].
Proof. reflexivity. Qed.

Lemma widgets_override_040 :
  Facade.ws_column <$> Facade.widgets (Facade.create tips Facade.override_040)
  = ["total_bill"; "tip"; "sex"; "smoker"; "day"; "time"; "size"].
Proof. reflexivity. Qed.

(** C4. For every table, every override map and every session of [set]
    and [resetAll] calls on the facade created from them, the ResultIndex
    after a further [resetAll()] is the full set of row identifiers of the
    table, and it is the ResultIndex of the facade as freshly created. *)
Theorem resetAll_restores_full_index tbl overrides acts :
  let fresh_facade := Facade.create tbl overrides in
  let fa := Facade.resetAll (Facade.run fresh_facade acts) in
  Facade.filterIndex fa = list_to_set (index tbl)
  ∧ Facade.filterIndex fa = Facade.filterIndex fresh_facade.
Proof.
  intros fresh_facade fa.
  assert (Facade.filterIndex fa = list_to_set (index tbl)) as Hfull.
  { unfold Facade.filterIndex, fa. simpl. rewrite run_table. simpl.
    apply combine_default. intros column.
    apply (get_resetAll (Facade.run fresh_facade acts)). }
  split; [done|]. rewrite Hfull. symmetry.
  unfold Facade.filterIndex, fresh_facade. simpl.
  apply combine_default. intros column. unfold Facade.get.
  by rewrite lookup_empty.
Qed.

(** C5. For every table and every override map that disables a column:
    the facade has no widget for that column, and any two state stores
    that differ at most in the state of that column give the same
    ResultIndex. In particular, after any session, setting the disabled
    column to any state leaves the ResultIndex as it was. *)
Theorem disabled_column_state_irrelevant tbl overrides column :
  overrides !! column = Some Facade.disable →
  let fa := Facade.create tbl overrides in
  (∀ w, w ∈ Facade.widgets fa → Facade.ws_column w ≠ column)
  ∧ (∀ sts1 sts2 : gmap string Facade.WidgetState,
       (∀ c, c ≠ column → sts1 !! c = sts2 !! c) →
       Facade.combine tbl sts1 (Facade.widgets fa)
       = Facade.combine tbl sts2 (Facade.widgets fa))
  ∧ (∀ acts st1 st2,
       Facade.filterIndex (Facade.set column st1 (Facade.run fa acts))
       = Facade.filterIndex (Facade.set column st2 (Facade.run fa acts))
       ∧ Facade.filterIndex (Facade.set column st1 (Facade.run fa acts))
         = Facade.filterIndex (Facade.run fa acts)).
Proof.
  intros Hdis fa.
  assert (∀ w, w ∈ Facade.widgets fa → Facade.ws_column w ≠ column) as Hnone
    by (intros w; by apply disabled_no_widget).
  assert (∀ sts1 sts2 : gmap string Facade.WidgetState,
            (∀ c, c ≠ column → sts1 !! c = sts2 !! c) →
            Facade.combine tbl sts1 (Facade.widgets fa)
            = Facade.combine tbl sts2 (Facade.widgets fa)) as Hext.
  { intros sts1 sts2 Hsame. apply combine_ext. intros w Hw.
    unfold Facade.get. by rewrite Hsame by by apply Hnone. }
  split; [done|]. split; [done|].
  intros acts st1 st2. unfold Facade.filterIndex. simpl.
  rewrite run_table, run_widgets. simpl. split.
  - apply Hext. intros c Hc. by rewrite !lookup_insert_ne.
  - apply Hext. intros c Hc. by rewrite lookup_insert_ne.
Qed.

Lemma disabled_column_state_irrelevant_witness :
  Facade.override_030 !! "total_bill" = Some Facade.disable
  ∧ Facade.filterIndex
      (Facade.set "total_bill" (Facade.Between 0 20)
         (Facade.run (Facade.create tips Facade.override_030)
            [Facade.CallSet "day" (Facade.Chosen [VStr "Sun"])]))
    = Facade.filterIndex
        (Facade.set "total_bill" Facade.NoRestriction
           (Facade.run (Facade.create tips Facade.override_030)
              [Facade.CallSet "day" (Facade.Chosen [VStr "Sun"])])).
Proof.
  assert (Facade.override_030 !! "total_bill" = Some Facade.disable) as Hdis
    by reflexivity.
  split; [exact Hdis|].
  destruct (disabled_column_state_irrelevant tips Facade.override_030
              "total_bill" Hdis) as (_ & _ & Hset).
  apply (Hset [Facade.CallSet "day" (Facade.Chosen [VStr "Sun"])]
              (Facade.Between 0 20) Facade.NoRestriction).
Defined.

(** * Further properties of the filters *)

(** ** Masks, position by position *)

Lemma isin_lookup s values i :
  isin s values !! i = Some true ↔ ∃ x, s !! i = Some (VStr x) ∧ x ∈ values.
Proof.
  unfold isin. rewrite list_lookup_fmap.
  destruct (s !! i) as [[x|z|q]|]; simpl.
  - split.
    + intros [= H]. apply bool_decide_eq_true in H. eauto.
    + intros (y & [= <-] & Hy). f_equal. by apply bool_decide_eq_true.
  - split; [done | by intros (y & [=] & _)].
  - split; [done | by intros (y & [=] & _)].
  - split; [done | by intros (y & [=] & _)].
Qed.

Lemma truthy_false {A} (t : list A) : truthy t = false ↔ t = [].
Proof. by destruct t. Qed.

Lemma passes_truthy selected s i :
  truthy selected = true →
  passes selected s i ↔ isin s selected !! i = Some true.
Proof.
  intros Ht. rewrite isin_lookup. unfold passes. split; [|by right].
  intros [->|H]; [done | done].
Qed.

Lemma passes_default s i : passes [] s i.
Proof. by left. Qed.

(** The [k]-th kept position of a mask is the same for every list the mask
    is applied to. *)
Lemma select_lookup mask k :
  (∃ i, mask !! i = Some true ∧ ∀ B (l : list B), select mask l !! k = l !! i)
  ∨ (∀ B (l : list B), select mask l !! k = None).
Proof.
  revert k. induction mask as [|b mask IH]; intros k.
  { right. by intros B [|x l]. }
  destruct b.
  - destruct k as [|k].
    + left. exists 0%nat. split; [done|]. by intros B [|x l].
    + destruct (IH k) as [(i & Hi & Hsel) | Hnone].
      * left. exists (S i). split; [done|]. intros B [|x l]; [done|]. apply Hsel.
      * right. intros B [|x l]; [done|]. apply Hnone.
  - destruct (IH k) as [(i & Hi & Hsel) | Hnone].
    + left. exists (S i). split; [done|]. intros B [|x l]; [done|]. apply Hsel.
    + right. intros B [|x l]; [done|]. apply Hnone.
Qed.

Lemma select_comm {A} (mask1 mask2 : list bool) (l : list A) :
  select (select mask1 mask2) (select mask1 l)
  = select (select mask2 mask1) (select mask2 l).
Proof.
  revert mask2 l. induction mask1 as [|b mask1 IH]; intros [|c mask2] [|x l];
    simpl; rewrite ?select_nil_r; try done.
  destruct b, c; simpl; by rewrite IH.
Qed.

(** ** What the filters keep, cell by cell *)

Lemma elem_of_select_passes selected s (l : list Z) x :
  truthy selected = true →
  x ∈ select (isin s selected) l ↔ ∃ i, l !! i = Some x ∧ passes selected s i.
Proof.
  intros Ht. rewrite elem_of_select. split.
  - intros (i & Hm & Hl). exists i. split; [done|]. by apply passes_truthy.
  - intros (i & Hl & Hp). exists i. split; [|done]. by apply passes_truthy.
Qed.

Lemma elem_of_passes_default s (l : list Z) x :
  x ∈ l ↔ ∃ i, l !! i = Some x ∧ passes [] s i.
Proof.
  rewrite list_elem_of_lookup. split.
  - intros [i Hi]. exists i. split; [done | apply passes_default].
  - intros (i & Hi & _). by exists i.
Qed.

(** X1. On a frame with a day and a time column, [data_filtered] returns a
    frame whose labels are exactly the labels of the rows whose day cell
    passes the day selection and whose time cell passes the time selection
    (a cell passes when nothing is selected or it is one of the selected
    strings). *)
Theorem data_filtered_rows_pass df filter_day filter_time day time :
  getitem df "day" = Ok day → getitem df "time" = Ok time →
  ∃ f, data_filtered df filter_day filter_time = Ok f
       ∧ ∀ x, x ∈ index f ↔
              ∃ i, index df !! i = Some x
                   ∧ passes filter_day day i ∧ passes filter_time time i.
Proof.
  intros Hday Htime. unfold data_filtered.
  destruct (truthy filter_day) eqn:Hfd; simpl.
  - rewrite Hday; simpl. destruct (truthy filter_time) eqn:Hft; simpl.
    + rewrite getitem_loc, Htime; simpl. eexists; split; [done|]. simpl.
      intros x. rewrite isin_select, elem_of_select_select. split.
      * intros (i & H1 & H2 & Hx). exists i.
        split; [done|]. split; by apply passes_truthy.
      * intros (i & Hx & H1 & H2). exists i.
        rewrite <-!passes_truthy by done. done.
    + apply truthy_false in Hft as ->. eexists; split; [done|]. simpl.
      intros x. rewrite elem_of_select_passes by done. split.
      * intros (i & Hx & Hp). exists i. by repeat split; try apply passes_default.
      * intros (i & Hx & Hp & _). by exists i.
  - apply truthy_false in Hfd as ->.
    destruct (truthy filter_time) eqn:Hft; simpl.
    + rewrite Htime; simpl. eexists; split; [done|]. simpl.
      intros x. rewrite elem_of_select_passes by done. split.
      * intros (i & Hx & Hp). exists i. by repeat split; try apply passes_default.
      * intros (i & Hx & _ & Hp). by exists i.
    + apply truthy_false in Hft as ->. eexists; split; [done|].
      intros x. rewrite (elem_of_passes_default day). split.
      * intros (i & Hx & Hp). exists i. by repeat split; try apply passes_default.
      * intros (i & Hx & Hp & _). by exists i.
Qed.

Lemma data_filtered_rows_pass_witness :
  ∃ f, data_filtered tips ["Sun"] ["Dinner"] = Ok f
       ∧ ∀ x, x ∈ index f ↔
              ∃ i, index tips !! i = Some x
                   ∧ passes ["Sun"] (strs ["Sun"; "Sun"; "Sun"; "Fri"; "Sun"]) i
                   ∧ passes ["Dinner"]
                       (strs ["Lunch"; "Dinner"; "Dinner"; "Dinner"; "Dinner"]) i.
Proof.
  apply (data_filtered_rows_pass tips ["Sun"] ["Dinner"]); reflexivity.
Defined.

(** X2. On a frame with a day and a time column, [filter_idx] returns the
    labels that some row with a passing day cell carries and that some row
    with a passing time cell carries. The two rows are the same one only
    when labels are unique. *)
Theorem filter_idx_labels_pass df filter_day filter_time day time :
  getitem df "day" = Ok day → getitem df "time" = Ok time →
  ∃ l, filter_idx df filter_day filter_time = Ok l
       ∧ ∀ x, x ∈ l ↔
              (∃ i, index df !! i = Some x ∧ passes filter_day day i)
              ∧ (∃ j, index df !! j = Some x ∧ passes filter_time time j).
Proof.
  intros Hday Htime. unfold filter_idx, filter_idx_set.
  assert (∀ x, x ∈ index df → ∀ s, ∃ i, index df !! i = Some x ∧ passes [] s i)
    as Hdef by (intros x Hx s; by apply elem_of_passes_default).
  destruct (truthy filter_day) eqn:Hfd; simpl.
  - rewrite Hday; simpl. destruct (truthy filter_time) eqn:Hft; simpl.
    + rewrite Htime; simpl. eexists; split; [done|]. intros x.
      rewrite elem_of_elements, !elem_of_intersection, !elem_of_list_to_set.
      rewrite !elem_of_select_passes by done. split; [tauto|].
      intros [(i & Hi & Hp) H2]. repeat split; eauto.
      by eapply list_elem_of_lookup_2.
    + apply truthy_false in Hft as ->. eexists; split; [done|]. intros x.
      rewrite elem_of_elements, !elem_of_intersection, !elem_of_list_to_set.
      rewrite !elem_of_select_passes by done. split.
      * intros [Hx H1]. split; [done | by apply Hdef].
      * intros [(i & Hi & Hp) _]. split; [by eapply list_elem_of_lookup_2 | eauto].
  - apply truthy_false in Hfd as ->.
    destruct (truthy filter_time) eqn:Hft; simpl.
    + rewrite Htime; simpl. eexists; split; [done|]. intros x.
      rewrite elem_of_elements, !elem_of_intersection, !elem_of_list_to_set.
      rewrite !elem_of_select_passes by done. split.
      * intros [Hx H1]. split; [by apply Hdef | done].
      * intros [_ (i & Hi & Hp)]. split; [by eapply list_elem_of_lookup_2 | eauto].
    + apply truthy_false in Hft as ->. eexists; split; [done|]. intros x.
      rewrite elem_of_elements, elem_of_list_to_set. split.
      * intros Hx. split; by apply Hdef.
      * intros [(i & Hi & _) _]. by eapply list_elem_of_lookup_2.
Qed.

Lemma filter_idx_labels_pass_witness :
  ∃ l, filter_idx shared_label ["Sun"] ["Dinner"] = Ok l
       ∧ ∀ x, x ∈ l ↔
              (∃ i, index shared_label !! i = Some x
                    ∧ passes ["Sun"] (strs ["Sun"; "Fri"]) i)
              ∧ (∃ j, index shared_label !! j = Some x
                      ∧ passes ["Dinner"] (strs ["Lunch"; "Dinner"]) j).
Proof.
  apply (filter_idx_labels_pass shared_label ["Sun"] ["Dinner"]); reflexivity.
Defined.

(** ** Exceptions of the two filters *)

Lemma truthy_true {A} (t : list A) : truthy t = true ↔ t ≠ [].
Proof. by destruct t. Qed.

Lemma narrow_Raise_iff df col selected idx e :
  narrow df col selected idx = Raise e ↔
  selected ≠ [] ∧ getitem df col = Raise e.
Proof.
  unfold narrow. destruct selected as [|x selected]; simpl.
  - split; [done | by intros [? _]].
  - destruct (getitem df col) as [s|e']; simpl.
    + split; [done | by intros [_ ?]].
    + split; [by intros [= ->] | by intros [_ [= ->]]].
Qed.

Lemma narrow_is_Ok df col selected idx :
  is_Ok (narrow df col selected idx) ↔ selected = [] ∨ is_Ok (getitem df col).
Proof.
  unfold narrow. destruct selected as [|x selected]; simpl.
  - split; [by left | by eexists].
  - destruct (getitem df col) as [s|e']; simpl.
    + split; [right | ]; by eexists.
    + split; [by intros [? ?] | by intros [? | [? ?]]].
Qed.

(** X3. [filter_idx] and [data_filtered] raise in the same cases and
    nothing but the KeyError of a column lookup: for a non-empty day
    selection on a frame without a day column, or else for a non-empty
    time selection on a frame without a time column. The day lookup comes
    first. *)
Theorem filters_raise_iff df filter_day filter_time e :
  let cases :=
    (filter_day ≠ [] ∧ getitem df "day" = Raise e)
    ∨ ((filter_day = [] ∨ is_Ok (getitem df "day"))
       ∧ filter_time ≠ [] ∧ getitem df "time" = Raise e) in
  (filter_idx df filter_day filter_time = Raise e ↔ cases)
  ∧ (data_filtered df filter_day filter_time = Raise e ↔ cases).
Proof.
  intros cases. subst cases. split.
  - unfold filter_idx. rewrite filter_idx_set_narrow.
    pose proof (narrow_Raise_iff df "day" filter_day (list_to_set (index df)) e) as H1.
    pose proof (narrow_is_Ok df "day" filter_day (list_to_set (index df))) as H1'.
    destruct H1 as [H1a H1b], H1' as [H1c H1d].
    destruct (narrow df "day" _ _) as [idx1|e1]; simpl.
    + pose proof (narrow_Raise_iff df "time" filter_time idx1 e) as [H2a H2b].
      destruct (narrow df "time" _ _) as [idx2|e2]; simpl.
      * split; [done|]. intros [Hc | (_ & Hc)]; [by apply H1b in Hc | by apply H2b in Hc].
      * split.
        -- intros [= ->]. right. split; [apply H1c; by eexists | by apply H2a].
        -- intros [Hc | (_ & Hc)]; [by apply H1b in Hc | ].
           apply H2b in Hc. by injection Hc as ->.
    + split.
      * intros [= ->]. left. by apply H1a.
      * intros [Hc | (Hok & _)].
        -- apply H1b in Hc. by injection Hc as ->.
        -- apply H1d in Hok. by destruct Hok.
  - unfold data_filtered. destruct filter_day as [|d filter_day]; simpl.
    + destruct filter_time as [|t filter_time]; simpl.
      * split; [done|]. by intros [[? _] | (_ & ? & _)].
      * destruct (getitem df "time") as [time|e']; simpl.
        -- split; [done|]. by intros [[? _] | (_ & _ & ?)].
        -- split.
           ++ intros [= ->]. right. split; [by left | done].
           ++ by intros [[? _] | (_ & _ & [= ->])].
    + destruct (getitem df "day") as [day|e'] eqn:Hday; simpl.
      * destruct filter_time as [|t filter_time]; simpl.
        -- split; [done|]. by intros [[_ ?] | (_ & ? & _)].
        -- rewrite getitem_loc.
           destruct (getitem df "time") as [time|e'']; simpl.
           ++ split; [done|]. by intros [[_ ?] | (_ & _ & ?)].
           ++ split.
              ** intros [= ->]. right. split; [right; by eexists | done].
              ** by intros [[_ ?] | (_ & _ & [= ->])].
      * split.
        -- intros [= ->]. by left.
        -- intros [[_ [= ->]] | ([? | [? ?]] & _)]; done.
Qed.

(** ** The frame [data_filtered] returns *)

Lemma length_select_eq {A B} mask (l1 : list A) (l2 : list B) :
  length l1 = length l2 → length (select mask l1) = length (select mask l2).
Proof.
  revert l1 l2. induction mask as [|b mask IH]; intros [|x l1] [|y l2];
    simpl; try done.
  intros [= Hlen]. destruct b; simpl; by rewrite (IH l1 l2).
Qed.

Lemma loc_wf df mask : wf_frame df → wf_frame (loc df mask).
Proof.
  unfold wf_frame, loc. simpl. rewrite Forall_fmap. intros Hwf.
  eapply Forall_impl; [exact Hwf|].
  intros [k vs] Hlen. simpl in *. by apply length_select_eq.
Qed.

Lemma loc_names df mask : (columns (loc df mask)).*1 = (columns df).*1.
Proof.
  unfold loc. simpl. rewrite <-list_fmap_compose. by apply list_fmap_ext.
Qed.

(** Whatever holds of the frame read and is kept by a boolean slice holds
    of the frame [data_filtered] returns. *)
Lemma data_filtered_ind (P : frame → Prop) df filter_day filter_time f :
  P df → (∀ g mask, P g → P (loc g mask)) →
  data_filtered df filter_day filter_time = Ok f → P f.
Proof.
  intros Hdf Hloc. unfold data_filtered.
  destruct (truthy filter_day); simpl.
  - destruct (getitem df "day") as [day|]; simpl; [|done].
    destruct (truthy filter_time); simpl.
    + destruct (getitem (loc df _) "time") as [time|]; simpl; [|done].
      intros [= <-]. by do 2 apply Hloc.
    + intros [= <-]. by apply Hloc.
  - destruct (truthy filter_time); simpl.
    + destruct (getitem df "time") as [time|]; simpl; [|done].
      intros [= <-]. by apply Hloc.
    + by intros [= <-].
Qed.

(** X4. The frame [data_filtered] returns has the columns of the frame
    it read, under the same names and in the same order; its labels are
    labels of that frame, in their original order; its columns are as long
    as its index when they were; and its labels are unique when they
    were. *)
Theorem data_filtered_shape df filter_day filter_time f :
  data_filtered df filter_day filter_time = Ok f →
  (columns f).*1 = (columns df).*1
  ∧ index f `sublist_of` index df
  ∧ (wf_frame df → wf_frame f)
  ∧ (unique_index df → unique_index f).
Proof.
  intros Hf. repeat split.
  - eapply (data_filtered_ind (λ g, (columns g).*1 = (columns df).*1)); [done| |done].
    intros g mask Hg. by rewrite loc_names.
  - eapply (data_filtered_ind (λ g, index g `sublist_of` index df)); [done| |done].
    intros g mask Hg. etrans; [apply select_sublist | done].
  - intros Hwf. eapply (data_filtered_ind wf_frame); [done| |done].
    intros g mask. apply loc_wf.
  - intros Hu. eapply (data_filtered_ind unique_index); [done| |done].
    intros g mask. apply select_NoDup.
Qed.

Lemma data_filtered_shape_witness :
  (columns (loc tips (isin (strs ["Sun"; "Sun"; "Sun"; "Fri"; "Sun"]) ["Fri"]))).*1
  = (columns tips).*1
  ∧ index (loc tips (isin (strs ["Sun"; "Sun"; "Sun"; "Fri"; "Sun"]) ["Fri"]))
      `sublist_of` index tips.
Proof.
  destruct (data_filtered_shape tips ["Fri"] []
              (loc tips (isin (strs ["Sun"; "Sun"; "Sun"; "Fri"; "Sun"]) ["Fri"]))
              eq_refl) as (Hnames & Hsub & _).
  by split.
Defined.

(** X5. Every row of the frame [data_filtered] returns is a row of the
    frame it read: at each position the label and all the cells are those
    of one and the same position of the original frame. *)
Theorem data_filtered_rows_intact df filter_day filter_time f :
  data_filtered df filter_day filter_time = Ok f →
  ∀ k, (k < length (index f))%nat →
       ∃ i, index f !! k = index df !! i ∧ row f k = row df i.
Proof.
  apply (data_filtered_ind
    (λ g, ∀ k, (k < length (index g))%nat →
               ∃ i, index g !! k = index df !! i ∧ row g k = row df i)).
  - intros k _. by exists k.
  - intros g mask Hg k Hk. simpl in Hk.
    destruct (select_lookup mask k) as [(i & _ & Hsel) | Hnone].
    + assert (i < length (index g))%nat as Hi.
      { apply lookup_lt_is_Some. rewrite <-Hsel. by apply lookup_lt_is_Some. }
      destruct (Hg i Hi) as (j & Hj & Hrow). exists j. split.
      * simpl. by rewrite Hsel.
      * rewrite <-Hrow. unfold row, loc. simpl. rewrite <-list_fmap_compose.
        apply list_fmap_ext. intros _ [c vs] _. simpl. by rewrite Hsel.
    + apply lookup_lt_is_Some in Hk. rewrite Hnone in Hk. by destruct Hk.
Qed.

Lemma data_filtered_rows_intact_witness :
  ∃ i, index (loc tips (isin (strs ["Sun"; "Sun"; "Sun"; "Fri"; "Sun"]) ["Fri"]))
         !! 0%nat = index tips !! i
       ∧ row (loc tips (isin (strs ["Sun"; "Sun"; "Sun"; "Fri"; "Sun"]) ["Fri"])) 0
         = row tips i.
Proof.
  apply (data_filtered_rows_intact tips ["Fri"] []
           (loc tips (isin (strs ["Sun"; "Sun"; "Sun"; "Fri"; "Sun"]) ["Fri"]))
           eq_refl 0%nat).
  vm_compute. lia.
Defined.

(** ** Filtering twice, and in the other order *)

Lemma select_Forall {A} (P : A → Prop) mask (l : list A) :
  Forall P l → Forall P (select mask l).
Proof.
  rewrite !Forall_forall. intros Hl x Hx. by eapply Hl, select_elem_of.
Qed.

Lemma select_self_true mask : Forall (λ b, b = true) (select mask mask).
Proof.
  apply Forall_forall. intros b Hb.
  apply elem_of_select in Hb as (i & Hi & Hb). congruence.
Qed.

Lemma length_select_self {A} mask (l : list A) :
  (length (select mask l) ≤ length (select mask mask))%nat.
Proof.
  revert l. induction mask as [|b mask IH]; intros [|x l]; simpl; try lia.
  destruct b; simpl; specialize (IH l); lia.
Qed.

Lemma length_select_mono {A B} mask (l1 : list A) (l2 : list B) :
  (length l1 ≤ length l2)%nat →
  (length (select mask l1) ≤ length (select mask l2))%nat.
Proof.
  revert l1 l2. induction mask as [|b mask IH]; intros [|x l1] [|y l2];
    simpl; try lia.
  intros Hlen. destruct b; simpl; specialize (IH l1 l2); lia.
Qed.

(** A mask of Trues at least as long as the list keeps all of it. *)
Lemma select_fix {A} mask (l : list A) :
  Forall (λ b, b = true) mask → (length l ≤ length mask)%nat →
  select mask l = l.
Proof.
  revert l. induction mask as [|b mask IH]; intros [|x l]; simpl; try done.
  - intros _ Hlen. lia.
  - intros Hall Hlen. apply Forall_cons in Hall as [-> Hall].
    f_equal. apply IH; [done | lia].
Qed.

Lemma loc_fix g mask :
  select mask (index g) = index g →
  Forall (λ c, select mask c.2 = c.2) (columns g) →
  loc g mask = g.
Proof.
  destruct g as [idx cols]. unfold loc. simpl. intros -> Hcols. f_equal.
  induction Hcols as [|[k vs] cols Hc _ IH]; [done|].
  simpl in Hc. rewrite fmap_cons. simpl. f_equal; [by rewrite Hc | exact IH].
Qed.

(** Slicing a slice with the mask of the cells it kept changes nothing. *)
Lemma loc_again df mask1 mask2 :
  loc (loc (loc df mask1) mask2) (select mask2 (select mask1 mask1))
  = loc (loc df mask1) mask2.
Proof.
  assert (∀ B (l : list B),
            select (select mask2 (select mask1 mask1)) (select mask2 (select mask1 l))
            = select mask2 (select mask1 l)) as Hfix.
  { intros B l. apply select_fix.
    - apply select_Forall, select_self_true.
    - apply length_select_mono, length_select_self. }
  apply loc_fix; simpl; [apply Hfix|].
  rewrite !Forall_fmap. apply Forall_forall. intros [k vs] _. simpl. apply Hfix.
Qed.

Lemma loc_self df mask : loc (loc df mask) (select mask mask) = loc df mask.
Proof.
  assert (∀ B (l : list B), select (select mask mask) (select mask l) = select mask l)
    as Hfix.
  { intros B l. apply select_fix; [apply select_self_true | apply length_select_self]. }
  apply loc_fix; simpl; [apply Hfix|].
  rewrite Forall_fmap. apply Forall_forall. intros [k vs] _. simpl. apply Hfix.
Qed.

(** X6. Filtering is idempotent: on the frame [data_filtered] returned,
    [data_filtered] with the same selections returns that frame again. *)
Theorem data_filtered_idempotent df filter_day filter_time f :
  data_filtered df filter_day filter_time = Ok f →
  data_filtered f filter_day filter_time = Ok f.
Proof.
  unfold data_filtered.
  destruct (truthy filter_day) eqn:Hfd; simpl.
  - destruct (getitem df "day") as [day|] eqn:Hday; simpl; [|done].
    destruct (truthy filter_time) eqn:Hft; simpl.
    + rewrite getitem_loc.
      destruct (getitem df "time") as [time|] eqn:Htime; simpl; [|done].
      intros [= <-]. rewrite !getitem_loc, Hday. simpl.
      rewrite !isin_select, loc_again.
      rewrite !getitem_loc, Htime. simpl. rewrite !isin_select.
      by rewrite loc_self.
    + intros [= <-]. rewrite getitem_loc, Hday. simpl.
      by rewrite isin_select, loc_self.
  - destruct (truthy filter_time) eqn:Hft; simpl.
    + destruct (getitem df "time") as [time|] eqn:Htime; simpl; [|done].
      intros [= <-]. rewrite getitem_loc, Htime. simpl.
      by rewrite isin_select, loc_self.
    + by intros [= <-].
Qed.

Lemma data_filtered_idempotent_witness :
  data_filtered (loc tips (isin (strs ["Sun"; "Sun"; "Sun"; "Fri"; "Sun"]) ["Fri"]))
    ["Fri"] []
  = Ok (loc tips (isin (strs ["Sun"; "Sun"; "Sun"; "Fri"; "Sun"]) ["Fri"])).
Proof.
  apply (data_filtered_idempotent tips ["Fri"] []). reflexivity.
Defined.

Lemma loc_comm df mask1 mask2 :
  loc (loc df mask1) (select mask1 mask2) = loc (loc df mask2) (select mask2 mask1).
Proof.
  unfold loc. simpl. f_equal; [apply select_comm|].
  rewrite <-!list_fmap_compose. apply list_fmap_ext.
  intros _ [k vs] _. simpl. f_equal. apply select_comm.
Qed.

(** X7. Filtering by day and time at once is filtering by day and then, on
    the result, by time; and it has the same outcome as filtering by time
    first and by day on the result: the same frame, or an exception
    both ways. *)
Theorem data_filtered_composes df filter_day filter_time :
  data_filtered df filter_day filter_time
  = (f ← data_filtered df filter_day []; data_filtered f [] filter_time)
  ∧ same_outcome
      (data_filtered df filter_day filter_time)
      (f ← data_filtered df [] filter_time; data_filtered f filter_day []).
Proof.
  split.
  - unfold data_filtered. simpl.
    destruct (truthy filter_day); simpl; [|by destruct (truthy filter_time)].
    by destruct (getitem df "day").
  - unfold data_filtered. simpl.
    destruct (truthy filter_day) eqn:Hfd, (truthy filter_time) eqn:Hft; simpl.
    + destruct (getitem df "day") as [day|] eqn:Hday,
               (getitem df "time") as [time|] eqn:Htime; simpl;
        rewrite ?Hfd, ?getitem_loc, ?Hday, ?Htime; simpl; try done.
      by rewrite !isin_select, loc_comm.
    + by destruct (getitem df "day").
    + by destruct (getitem df "time").
    + done.
Qed.

(** ** The selection as a set of strings *)

Lemma isin_ext s values values' :
  (∀ x, x ∈ values ↔ x ∈ values') → isin s values = isin s values'.
Proof.
  intros Hsame. unfold isin. apply list_fmap_ext. intros _ [x|z|q] _; try done.
  apply bool_decide_ext, Hsame.
Qed.

Lemma truthy_ext {A} (t t' : list A) :
  (∀ x, x ∈ t ↔ x ∈ t') → truthy t = truthy t'.
Proof.
  destruct t as [|a t], t' as [|b t']; simpl; try done; intros Hsame.
  - assert (b ∈ (@nil A)) as Hb by (apply Hsame; by left). by apply elem_of_nil in Hb.
  - assert (a ∈ (@nil A)) as Ha by (apply Hsame; by left). by apply elem_of_nil in Ha.
Qed.

Lemma narrow_ext df col selected selected' idx :
  (∀ x, x ∈ selected ↔ x ∈ selected') →
  narrow df col selected idx = narrow df col selected' idx.
Proof.
  intros Hsame. unfold narrow. rewrite (truthy_ext _ _ Hsame).
  destruct (truthy selected'); [|done].
  destruct (getitem df col) as [s|]; simpl; [|done].
  by rewrite (isin_ext _ _ _ Hsame).
Qed.

(** X8. Only the set of selected strings matters: two selections with
    the same elements, in any order and with any repetitions, give the
    same result, for [filter_idx] and for [data_filtered]. *)
Theorem selection_order_irrelevant df filter_day filter_day' filter_time filter_time' :
  (∀ x, x ∈ filter_day ↔ x ∈ filter_day') →
  (∀ x, x ∈ filter_time ↔ x ∈ filter_time') →
  filter_idx df filter_day filter_time = filter_idx df filter_day' filter_time'
  ∧ data_filtered df filter_day filter_time
    = data_filtered df filter_day' filter_time'.
Proof.
  intros Hday Htime. split.
  - unfold filter_idx. rewrite !filter_idx_set_narrow.
    rewrite (narrow_ext df "day" _ _ _ Hday).
    destruct (narrow df "day" filter_day' _) as [idx1|]; simpl; [|done].
    by rewrite (narrow_ext df "time" _ _ _ Htime).
  - unfold data_filtered.
    rewrite (truthy_ext _ _ Hday), (truthy_ext _ _ Htime).
    destruct (truthy filter_day'); simpl.
    + destruct (getitem df "day") as [day|]; simpl; [|done].
      rewrite (isin_ext _ _ _ Hday).
      destruct (truthy filter_time'); simpl; [|done].
      destruct (getitem (loc df _) "time") as [time|]; simpl; [|done].
      by rewrite (isin_ext _ _ _ Htime).
    + destruct (truthy filter_time'); simpl; [|done].
      destruct (getitem df "time") as [time|]; simpl; [|done].
      by rewrite (isin_ext _ _ _ Htime).
Qed.

Lemma selection_order_irrelevant_witness :
  filter_idx tips ["Sun"; "Fri"; "Sun"] ["Dinner"]
  = filter_idx tips ["Fri"; "Sun"] ["Dinner"; "Dinner"]
  ∧ data_filtered tips ["Sun"; "Fri"; "Sun"] ["Dinner"]
    = data_filtered tips ["Fri"; "Sun"] ["Dinner"; "Dinner"].
Proof.
  apply (selection_order_irrelevant tips); intros x;
    rewrite !elem_of_cons, !elem_of_nil; tauto.
Defined.

Lemma narrow_mono df col selected selected' idx :
  selected ≠ [] → (∀ x, x ∈ selected → x ∈ selected') →
  agree (λ s s' : gset Z, s ⊆ s')
        (narrow df col selected idx) (narrow df col selected' idx).
Proof.
  intros Hne Hsub. unfold narrow.
  destruct selected as [|a selected]; [done|].
  destruct selected' as [|b selected'].
  { assert (a ∈ (@nil string)) as Ha by (apply Hsub; by left).
    by apply elem_of_nil in Ha. }
  simpl. destruct (getitem df col) as [s|]; simpl; [|done].
  intros x. rewrite !elem_of_intersection, !elem_of_list_to_set, !elem_of_select.
  intros [Hx (i & Hm & Hi)]. split; [done|]. exists i. split; [|done].
  apply isin_lookup in Hm as (y & Hy & Hin). apply isin_lookup. eauto.
Qed.

(** X9. Adding strings to a non-empty selection never removes a label from
    what [filter_idx] returns, for the day input and for the time input
    alike; where one run raises the other raises the same exception. *)
Theorem filter_idx_selection_monotone df filter_day filter_time :
  (∀ filter_day',
     filter_day ≠ [] → (∀ x, x ∈ filter_day → x ∈ filter_day') →
     agree (λ l l' : list Z, l ⊆ l')
       (filter_idx df filter_day filter_time)
       (filter_idx df filter_day' filter_time))
  ∧ (∀ filter_time',
       filter_time ≠ [] → (∀ x, x ∈ filter_time → x ∈ filter_time') →
       agree (λ l l' : list Z, l ⊆ l')
         (filter_idx df filter_day filter_time)
         (filter_idx df filter_day filter_time')).
Proof.
  split.
  - intros filter_day' Hne Hsub. unfold filter_idx.
    rewrite !filter_idx_set_narrow.
    pose proof (narrow_mono df "day" _ _ (list_to_set (index df)) Hne Hsub) as H1.
    destruct (narrow df "day" filter_day _) as [idx1|e1],
             (narrow df "day" filter_day' _) as [idx1'|e1']; simpl in *; try done.
    unfold narrow. destruct (truthy filter_time); simpl.
    + destruct (getitem df "time") as [time|]; simpl; [|done].
      intros x. rewrite !elem_of_elements, !elem_of_intersection.
      intros [Hx Ht]. split; [by apply H1 | done].
    + intros x. rewrite !elem_of_elements. apply H1.
  - intros filter_time' Hne Hsub. unfold filter_idx.
    rewrite !filter_idx_set_narrow.
    destruct (narrow df "day" filter_day _) as [idx1|e1]; simpl; [|done].
    pose proof (narrow_mono df "time" _ _ idx1 Hne Hsub) as H2.
    destruct (narrow df "time" filter_time _) as [idx2|e2],
             (narrow df "time" filter_time' _) as [idx2'|e2']; simpl in *; try done.
    intros x. rewrite !elem_of_elements. apply H2.
Qed.

Lemma filter_idx_selection_monotone_witness :
  agree (λ l l' : list Z, l ⊆ l')
    (filter_idx tips ["Fri"] ["Dinner"])
    (filter_idx tips ["Fri"; "Sun"] ["Dinner"]).
Proof.
  destruct (filter_idx_selection_monotone tips ["Fri"] ["Dinner"]) as [Hday _].
  apply (Hday ["Fri"; "Sun"]); [done|].
  intros x. rewrite !elem_of_cons, !elem_of_nil. tauto.
Defined.

(** ** The guards of [filter_idx] *)

Lemma select_isin_nil {A} s (l : list A) : select (isin s []) l = [].
Proof.
  revert l. induction s as [|v s IH]; intros [|x l]; simpl; try done.
  destruct v; simpl; apply IH.
Qed.

(** X10. The truthiness guards are what makes an empty selection mean
    "no filter". With both selections non-empty the guard-free
    [filter_idx] of pandas_hints.py returns what the [filter_idx] of the
    app returns; with an empty selection, on a frame with both columns, it
    returns the empty list. *)
Theorem hints_filter_idx_guards df filter_day filter_time :
  (filter_day ≠ [] → filter_time ≠ [] →
   PandasHints.filter_idx df filter_day filter_time
   = filter_idx df filter_day filter_time)
  ∧ (is_Ok (getitem df "day") → is_Ok (getitem df "time") →
     filter_day = [] ∨ filter_time = [] →
     PandasHints.filter_idx df filter_day filter_time = Ok []).
Proof.
  split.
  - intros Hfd%truthy_true Hft%truthy_true.
    unfold PandasHints.filter_idx, filter_idx, filter_idx_set.
    rewrite Hfd, Hft. simpl.
    destruct (getitem df "day") as [day|]; simpl; [|done].
    by destruct (getitem df "time") as [time|].
  - intros [day Hday] [time Htime] Hempty.
    unfold PandasHints.filter_idx. rewrite Hday, Htime. simpl.
    f_equal. apply elements_empty_iff. apply elem_of_equiv_empty.
    intros x. rewrite !elem_of_intersection, !elem_of_list_to_set.
    intros [[_ H1] H2].
    destruct Hempty as [-> | ->].
    + rewrite select_isin_nil in H1. by apply elem_of_nil in H1.
    + rewrite select_isin_nil in H2. by apply elem_of_nil in H2.
Qed.

Lemma hints_filter_idx_guards_witness :
  PandasHints.filter_idx tips ["Sun"] ["Dinner"] = filter_idx tips ["Sun"] ["Dinner"]
  ∧ PandasHints.filter_idx tips ["Sun"] [] = Ok [].
Proof.
  destruct (hints_filter_idx_guards tips ["Sun"] ["Dinner"]) as [Hsame _].
  destruct (hints_filter_idx_guards tips ["Sun"] []) as [_ Hempty].
  split.
  - by apply Hsame.
  - apply Hempty; [by eexists | by eexists | by right].
Defined.

(** ** Slicing with the returned labels (line 34) *)







(** ** The choices offered and the rows they select *)






















(** ** The object [data_filtered] returns *)

Lemma fresh_not_live (h : gmap addr frame) r f : h !! r = Some f → fresh (dom h) ≠ r.
Proof. intros Hr Heq. pose proof (fresh_unused h) as Hnone. congruence. Qed.

Lemma Py_bind_inv {A B} (m : Py A) (k : A → Py B) (h : gmap addr frame) b h' :
  (m ≫= k) h = Ok (b, h') → ∃ a h1, m h = Ok (a, h1) ∧ k a h1 = Ok (b, h').
Proof.
  unfold mbind, Py_bind. destruct (m h) as [[a h1]|]; [|done]. eauto.
Qed.

(** One guarded block of [data_filtered_py] returns the address it was
    given and an untouched store, or a fresh address in a store with one
    more object. *)
Lemma slice_py_alias (h : gmap addr frame) df f col selected r h1 :
  h !! df = Some f →
  (if truthy selected then
     s ← py_getitem df col;
     py_loc df (isin s selected)
   else mret df) h = Ok (r, h1) →
  (selected = [] ∧ r = df ∧ h1 = h)
  ∨ (selected ≠ [] ∧ r = fresh (dom h) ∧ ∃ g, h1 = <[r := g]> h).
Proof.
  intros Hdf. destruct selected as [|x selected]; simpl.
  - intros [= <- <-]. by left.
  - intros (s & h0 & Hget & Hloc)%Py_bind_inv. right. split; [done|].
    destruct (getitem f col) as [s'|e] eqn:Hs.
    + rewrite (py_getitem_Ok _ _ _ _ _ Hdf Hs) in Hget. injection Hget as <- <-.
      rewrite (py_loc_Ok _ _ _ _ Hdf) in Hloc. injection Hloc as <- <-.
      split; [done | by eexists].
    + by rewrite (py_getitem_Raise _ _ _ _ _ Hdf Hs) in Hget.
Qed.

(** X14. [data_filtered] returns the very object [tips] names, and
    creates none, exactly when both selections are empty; with a selection
    it returns an object that did not exist before the call. *)
Theorem data_filtered_py_alias (h : gmap addr frame) tips f filter_day filter_time r h' :
  h !! tips = Some f →
  data_filtered_py tips filter_day filter_time h = Ok (r, h') →
  (r = tips ↔ filter_day = [] ∧ filter_time = [])
  ∧ (r = tips → h' = h)
  ∧ (r ≠ tips → h !! r = None ∧ is_Some (h' !! r)).
Proof.
  intros Htips. unfold data_filtered_py. cbv zeta.
  intros (r1 & h1 & Hst1 & (r2 & h2 & Hst2 & Hret)%Py_bind_inv)%Py_bind_inv.
  injection Hret as <- <-.
  pose proof (fresh_not_live _ _ _ Htips) as Hne.
  destruct (slice_py_alias _ _ _ _ _ _ _ Htips Hst1)
    as [(-> & -> & ->) | (Hfd & -> & g & ->)].
  - destruct (slice_py_alias _ _ _ _ _ _ _ Htips Hst2)
      as [(-> & -> & ->) | (Hft & -> & g & ->)].
    + by repeat split.
    + split; [split; [done | by intros [_ ?]]|]. split; [done|]. intros _.
      split; [apply fresh_unused | by rewrite lookup_insert_eq].
  - assert ((<[fresh (dom h) := g]> h) !! fresh (dom h) = Some g) as Hr1
      by apply lookup_insert_eq.
    destruct (slice_py_alias _ _ _ _ _ _ _ Hr1 Hst2)
      as [(-> & -> & ->) | (Hft & -> & g2 & ->)].
    + split; [split; [done | by intros [? _]]|]. split; [done|]. intros _.
      split; [apply fresh_unused | by rewrite Hr1].
    + assert ((<[fresh (dom h) := g]> h) !! tips = Some f) as Htips1
        by by rewrite lookup_insert_ne.
      pose proof (fresh_not_live _ _ _ Htips1) as Hne2.
      split; [split; [done | by intros [? _]]|]. split; [done|]. intros _.
      split; [|by rewrite lookup_insert_eq].
      pose proof (fresh_unused (<[fresh (dom h) := g]> h)) as Hnone.
      apply lookup_insert_None in Hnone. apply Hnone.
Qed.

Lemma data_filtered_py_alias_witness :
  (1%nat = 0%nat ↔ ["Sun"] = [] ∧ @nil string = [])
  ∧ (1%nat ≠ 0%nat →
     ({[ 0%nat := tips ]} : gmap addr frame) !! 1%nat = None).
Proof.
  assert (({[ 0%nat := tips ]} : gmap addr frame) !! 0%nat = Some tips) as Htips
    by reflexivity.
  destruct (data_filtered_py_alias {[ 0%nat := tips ]} 0%nat tips ["Sun"] [] 1%nat
              (<[1%nat := loc tips (isin (strs ["Sun"; "Sun"; "Sun"; "Fri"; "Sun"])
                                     ["Sun"])]> {[ 0%nat := tips ]})
              Htips) as (Hiff & _ & Hnew).
  - vm_compute. reflexivity.
  - split; [exact Hiff|]. intros Hne. by destruct (Hnew Hne).
Defined.

(** ** Several strings in one input *)

Lemma narrow_app df col (selA selB : list string) idx :
  selA ≠ [] → selB ≠ [] →
  match narrow df col (selA ++ selB)%list idx,
        narrow df col selA idx, narrow df col selB idx with
  | Ok s, Ok sA, Ok sB => s = sA ∪ sB
  | Raise e, Raise eA, Raise eB => e = eA ∧ e = eB
  | _, _, _ => False
  end.
Proof.
  intros HA HB. unfold narrow.
  assert (truthy (selA ++ selB)%list = true) as -> by by destruct selA.
  rewrite (proj2 (truthy_true selA) HA), (proj2 (truthy_true selB) HB).
  destruct (getitem df col) as [s|]; simpl; [|done].
  apply set_eq. intros x.
  rewrite elem_of_union, !elem_of_intersection, !elem_of_list_to_set, !elem_of_select.
  split.
  - intros [Hx (i & Hm & Hi)]. apply isin_lookup in Hm as (y & Hy & Hin).
    apply elem_of_app in Hin as [Hin|Hin]; [left | right];
      (split; [done|]; exists i; split; [|done]; apply isin_lookup; eauto).
  - intros [[Hx (i & Hm & Hi)] | [Hx (i & Hm & Hi)]];
      (split; [done|]; exists i; split; [|done]);
      apply isin_lookup in Hm as (y & Hy & Hin); apply isin_lookup;
      exists y; (split; [done|]); apply elem_of_app; [by left | by right].
Qed.

(** X15. Within the day input the selected strings are alternatives: for
    two non-empty selections, [filter_idx] with both of them together
    returns the labels it returns with the one or with the other (the
    time selection being the same), and where one of the three runs
    raises all three raise the same exception. *)
Theorem filter_idx_selection_union df (selA selB : list string) filter_time :
  selA ≠ [] → selB ≠ [] →
  match filter_idx df (selA ++ selB)%list filter_time,
        filter_idx df selA filter_time, filter_idx df selB filter_time with
  | Ok l, Ok lA, Ok lB => ∀ x, x ∈ l ↔ x ∈ lA ∨ x ∈ lB
  | Raise e, Raise eA, Raise eB => e = eA ∧ e = eB
  | _, _, _ => False
  end.
Proof.
  intros HA HB. unfold filter_idx. rewrite !filter_idx_set_narrow.
  pose proof (narrow_app df "day" selA selB (list_to_set (index df)) HA HB) as H1.
  destruct (narrow df "day" (selA ++ selB)%list _) as [s|e],
           (narrow df "day" selA _) as [sA|eA],
           (narrow df "day" selB _) as [sB|eB]; simpl in *; try done.
  subst s. unfold narrow. destruct (truthy filter_time); simpl.
  - destruct (getitem df "time") as [time|]; simpl; [|done].
    intros x. rewrite !elem_of_elements, !elem_of_intersection, elem_of_union. tauto.
  - intros x. by rewrite !elem_of_elements, elem_of_union.
Qed.

Lemma filter_idx_selection_union_witness :
  match filter_idx tips (["Sun"] ++ ["Fri"])%list ["Dinner"],
        filter_idx tips ["Sun"] ["Dinner"], filter_idx tips ["Fri"] ["Dinner"] with
  | Ok l, Ok lA, Ok lB => ∀ x, x ∈ l ↔ x ∈ lA ∨ x ∈ lB
  | Raise e, Raise eA, Raise eB => e = eA ∧ e = eB
  | _, _, _ => False
  end.
Proof.
  apply (filter_idx_selection_union tips ["Sun"] ["Fri"] ["Dinner"]); done.
Defined.
